(** * OpenCLIF ETL: category-mapping resolution and schema normalisation

    A shallow embedding of [main.py] (class [OpenCLIFETL] and [load_mappings])
    together with the properties of its adapters, and of the functions of
    [scripts/build_openclif.py] that fill the identifier columns of the
    mapping tables.

    Modelling conventions.
    - A Python [str] is a Rocq [string] whose characters are the code points
      0..255 (Latin-1); the builtins [strip], [split], [isdigit], [int] and
      [lower] are given their Python meaning on that range.
    - A polars [DataFrame] is a list of column names and a list of rows, each
      row a list of cells.  A cell is null, an integer, a float or a string;
      a float stands for itself as a rational, and no arithmetic is done on
      it.  Column data types, and the casts and type errors polars derives
      from them, are not modelled, but for the one cast of [Expr.replace]
      described next.
    - [Expr.replace mapping] replaces the cells that are keys of the mapping
      by their values and leaves every other cell as it is, and the column
      keeps its data type (polars 1.0 and later, which [collect_schema] and
      [unpivot] require).  On the string columns of the eICU adapters, whose
      mappings have string values, that is all.  On the integer identifier
      column of the identifier-keyed adapters the new values are first cast
      to integers, strictly, and the call raises when one of them is a
      string that is not an integer numeral.
    - The file system is a finite map from paths (relative to [data_path],
      resp. [output_path]) to contents; [print] appends to a log.
    - A Python exception is an [exn]; an adapter that raises stops with the
      world as it was when the exception was raised. *)

From Stdlib Require Import ZArith QArith String Ascii List DecimalString DecimalPos.
From stdpp Require Import gmap strings list fin_maps.

Open Scope string_scope.
Open Scope list_scope.

(** ** Python builtins on [str] *)

Module Py.

Definition ord (c : ascii) : N := N_of_ascii c.
Definition chr (n : N) : ascii := ascii_of_N n.

Definition between (lo hi n : N) : bool := ((lo <=? n) && (n <=? hi))%N.

(** [str.isspace] on one character: TAB..CR, FS..US, space, NEL, NBSP. *)
Definition isspace_char (c : ascii) : bool :=
  let n := ord c in
  between 9 13 n || between 28 32 n || (n =? 133)%N || (n =? 160)%N.

(** Characters of Unicode category Nd below 256: the ASCII digits. *)
Definition isdecimal_char (c : ascii) : bool := between 48 57 (ord c).

(** [str.isdigit] on one character: the decimal characters and the
    superscript digits U+00B2, U+00B3 and U+00B9. *)
Definition isdigit_char (c : ascii) : bool :=
  let n := ord c in
  isdecimal_char c || (n =? 178)%N || (n =? 179)%N || (n =? 185)%N.

Definition lower_char (c : ascii) : ascii :=
  let n := ord c in
  if between 65 90 n || (between 192 222 n && negb (n =? 215)%N)
  then chr (n + 32) else c.

Definition nonempty (s : string) : bool :=
  match s with EmptyString => false | String _ _ => true end.

Fixpoint all_chars (p : ascii -> bool) (s : string) : bool :=
  match s with
  | EmptyString => true
  | String c s' => p c && all_chars p s'
  end.

(** [s.isdigit()] *)
Definition isdigit (s : string) : bool := nonempty s && all_chars isdigit_char s.

(** [s.isdecimal()] (not called by the program; used to state results). *)
Definition isdecimal (s : string) : bool := nonempty s && all_chars isdecimal_char s.

Fixpoint lstrip (s : string) : string :=
  match s with
  | EmptyString => EmptyString
  | String c s' => if isspace_char c then lstrip s' else s
  end.

Fixpoint rstrip (s : string) : string :=
  match s with
  | EmptyString => EmptyString
  | String c s' =>
      let r := rstrip s' in
      if isspace_char c && negb (nonempty r) then EmptyString else String c r
  end.

(** [s.strip()] *)
Definition strip (s : string) : string := rstrip (lstrip s).

(** [s.split(sep)] for a one-character separator. *)
Fixpoint split (sep : ascii) (s : string) : list string :=
  match s with
  | EmptyString => [EmptyString]
  | String c s' =>
      if Ascii.eqb c sep then EmptyString :: split sep s'
      else match split sep s' with
           | h :: t => String c h :: t
           | [] => [String c EmptyString]
           end
  end.

(** [s.lower()] *)
Fixpoint lower (s : string) : string :=
  match s with
  | EmptyString => EmptyString
  | String c s' => String (lower_char c) (lower s')
  end.

Fixpoint int_acc (acc : Z) (s : string) : option Z :=
  match s with
  | EmptyString => Some acc
  | String c s' =>
      if isdecimal_char c
      then int_acc (10 * acc + Z.of_N (ord c - 48))%Z s'
      else None
  end.

(** [int(s)] on a string of digit characters: the value in base ten, and
    [None] (a [ValueError]) when a character is not a decimal digit.  The
    program calls [int] only under an [isdigit] guard, so signs, underscores
    and surrounding blanks, which [int] also accepts, cannot occur; the
    interpreter's cap on the length of a converted string is not modelled. *)
Definition int (s : string) : option Z :=
  if nonempty s then int_acc 0 s else None.

(** [str(z)] for a Python [int]. *)
Definition str_of_int (z : Z) : string := NilZero.string_of_int (Z.to_int z).

End Py.

(** ** Cells, rows and data frames *)

Inductive cell : Type :=
| Null
| Int (z : Z)
| Float (q : Q)
| Str (s : string).

Definition is_not_null (c : cell) : bool :=
  match c with Null => false | _ => true end.

Record DataFrame : Type := mkDF {
  columns : list string;
  rows : list (list cell)
}.

Definition height (df : DataFrame) : nat := length (rows df).

Inductive exn : Type :=
| FileNotFoundError
| KeyError
| AttributeError
| ValueError
| UnboundLocalError
| PolarsError.

Inductive result (A : Type) : Type :=
| Ok (a : A)
| Raise (e : exn).
Arguments Ok {A} a.
Arguments Raise {A} e.

#[global] Instance result_ret : MRet result := fun A a => Ok a.
#[global] Instance result_bind : MBind result := fun A B k r =>
  match r with Ok a => k a | Raise e => Raise e end.

(** A Python [for] loop whose body may raise. *)
Fixpoint for_each {A S} (xs : list A) (body : S -> A -> result S) (s : S) : result S :=
  match xs with
  | [] => Ok s
  | x :: xs' => s' ← body s x; for_each xs' body s'
  end.

(** ** polars operations *)

Fixpoint index_of (c : string) (cols : list string) : option nat :=
  match cols with
  | [] => None
  | x :: xs => if String.eqb c x then Some 0 else S <$> index_of c xs
  end.

Definition has_column (cols : list string) (c : string) : bool :=
  match index_of c cols with Some _ => true | None => false end.

(** The cell of row [r] in column [c] of a frame with columns [cols]. *)
Definition cell_at (cols : list string) (c : string) (r : list cell) : cell :=
  match index_of c cols with Some i => nth i r Null | None => Null end.

(** [df.select(cs)] *)
Definition select (cs : list string) (df : DataFrame) : result DataFrame :=
  if forallb (has_column (columns df)) cs
  then Ok (mkDF cs (map (fun r => map (fun c => cell_at (columns df) c r) cs) (rows df)))
  else Raise PolarsError.

(** [df.filter(p(pl.col(c)))] *)
Definition filter_col (c : string) (p : cell -> bool) (df : DataFrame) : result DataFrame :=
  if has_column (columns df) c
  then Ok (mkDF (columns df) (List.filter (fun r => p (cell_at (columns df) c r)) (rows df)))
  else Raise PolarsError.

(** [df.with_columns(f(pl.col(src)).alias(alias))]: an existing column of
    that name is replaced in place, otherwise the column is appended. *)
Definition with_columns (src : string) (f : cell -> cell) (alias : string)
    (df : DataFrame) : result DataFrame :=
  if has_column (columns df) src then
    match index_of alias (columns df) with
    | Some i =>
        Ok (mkDF (columns df)
              (map (fun r => <[i := f (cell_at (columns df) src r)]> r) (rows df)))
    | None =>
        Ok (mkDF (columns df ++ [alias])
              (map (fun r => r ++ [f (cell_at (columns df) src r)]) (rows df)))
    end
  else Raise PolarsError.

Fixpoint dict_get {V} (d : list (string * V)) (k : string) : option V :=
  match d with
  | [] => None
  | (k', v) :: d' => if String.eqb k k' then Some v else dict_get d' k
  end.

Definition rename_name (m : list (string * string)) (c : string) : string :=
  default c (dict_get m c).

(** [df.rename(m)]: every key must be a column and the new names must be
    pairwise distinct. *)
Definition rename (m : list (string * string)) (df : DataFrame) : result DataFrame :=
  if forallb (has_column (columns df)) (map fst m) then
    let cols := map (rename_name m) (columns df) in
    if bool_decide (NoDup cols) then Ok (mkDF cols (rows df)) else Raise PolarsError
  else Raise PolarsError.

(** [df.unpivot(index=.., on=.., variable_name=.., value_name=..)]: the
    [on] columns are stacked one after the other. *)
Definition unpivot (index on : list string) (variable_name value_name : string)
    (df : DataFrame) : result DataFrame :=
  if forallb (has_column (columns df)) (index ++ on) then
    Ok (mkDF (index ++ [variable_name; value_name])
          (flat_map (fun c =>
             map (fun r => map (fun i => cell_at (columns df) i r) index
                             ++ [Str c; cell_at (columns df) c r]) (rows df)) on))
  else Raise PolarsError.

(** [Expr.replace(mapping)] with the mapping given by its lookup function. *)
Definition replace (lookup : cell -> option cell) (c : cell) : cell :=
  default c (lookup c).

Definition lookup_int (m : gmap Z cell) (c : cell) : option cell :=
  match c with Int k => m !! k | _ => None end.

Definition lookup_str (m : gmap string cell) (c : cell) : option cell :=
  match c with Str s => m !! s | _ => None end.

(** The integer a string is cast to: an optional sign and decimal digits. *)
Definition int_literal (s : string) : option Z :=
  let digits t := if Py.isdecimal t then Py.int t else None in
  match s with
  | String c t =>
      if Ascii.eqb c "-" then Z.opp <$> digits t
      else if Ascii.eqb c "+" then digits t
      else digits s
  | EmptyString => None
  end.

(** The strict cast of a value to an integer data type: a float is
    truncated, a string must be an integer numeral.  The range of the data
    type is not modelled. *)
Definition cast_int (v : cell) : option cell :=
  match v with
  | Null => Some Null
  | Int z => Some (Int z)
  | Float q => Some (Int (Z.quot (Qnum q) (Z.pos (Qden q))))
  | Str s => Int <$> int_literal s
  end.

(** [Expr.replace(mapping)] on an integer column, for a Python dictionary
    with integer keys.  The column keeps its data type: the new values are
    cast to it, strictly, before any cell is looked at, and the call raises
    [InvalidOperationError] when one of them cannot be cast; an empty
    mapping leaves the column as it is.  (That the new values make one
    polars series, which a dictionary mixing strings and numbers does not,
    is not modelled.) *)
Definition replace_int (mapping : gmap Z cell) : result (cell -> cell) :=
  if forallb (fun kv => bool_decide (is_Some (cast_int (snd kv)))) (map_to_list mapping)
  then Ok (replace (lookup_int (omap cast_int mapping)))
  else Raise PolarsError.

Definition lookup_dict (d : list (string * string)) (c : cell) : option cell :=
  match c with Str s => Str <$> dict_get d s | _ => None end.

(** [Expr.str.to_lowercase()] *)
Definition to_lowercase (c : cell) : cell :=
  match c with Str s => Str (Py.lower s) | _ => c end.

(** [Expr.is_in(ids)] on an integer column, for a list of Python integers;
    a null is not in it. *)
Definition is_in (ids : list Z) (c : cell) : bool :=
  match c with Int k => bool_decide (k ∈ ids) | _ => false end.

(** ** The world: source directory, output directory, console *)

Inductive node : Type :=
| File (df : DataFrame)
| Dir (entries : list (string * DataFrame)).

Inductive log_line : Type :=
| LoadedMappings (source : string) (vitals labs meds resp : nat)
| Banner (source : string)
| Complete
| Starting (dataset : string)
| MissingFile (f : string)
| Skipping (domain what : string)
| Processing (domain what : string)
| Mapping (n : nat) (what : string)
| NoMatching (what : string)
| Wrote (n : nat) (file : string)
| LabsIncluded (what : string).

Record World : Type := mkWorld {
  data : gmap string node;          (* files under [self.data_path] *)
  output : gmap string DataFrame;   (* files under [self.output_path] *)
  stdout : list log_line
}.

Definition print (l : log_line) (w : World) : World :=
  mkWorld (data w) (output w) (stdout w ++ [l]).

(** [df.write_parquet(output_path / file)]: creates or overwrites. *)
Definition write_parquet (file : string) (df : DataFrame) (w : World) : World :=
  mkWorld (data w) (<[file := df]> (output w)) (stdout w).

(** [Path.exists()] *)
Definition exists_ (w : World) (p : string) : bool :=
  match data w !! p with Some _ => true | None => false end.

(** [Path.is_dir()] *)
Definition is_dir (w : World) (p : string) : bool :=
  match data w !! p with Some (Dir _) => true | _ => false end.

(** [pl.scan_csv(p)] / [pl.scan_parquet(p)] followed by [collect]: the
    table stored in a regular file. *)
Definition scan_file (w : World) (p : string) : result DataFrame :=
  match data w !! p with
  | Some (File df) => Ok df
  | Some (Dir _) => Raise PolarsError
  | None => Raise FileNotFoundError
  end.
Definition scan_csv := scan_file.
Definition scan_parquet := scan_file.

(** Scanning a list of files: their rows one after the other; the list
    must not be empty and the files must agree on their columns. *)
Definition scan_files (fs : list DataFrame) : result DataFrame :=
  match fs with
  | [] => Raise PolarsError
  | d :: ds =>
      if forallb (fun d' => bool_decide (columns d' = columns d)) ds
      then Ok (mkDF (columns d) (concat (map rows fs)))
      else Raise PolarsError
  end.

Definition ends_with (suf s : string) : bool :=
  let n := String.length s in
  let k := String.length suf in
  (k <=? n)%nat && String.eqb (substring (n - k) k s) suf.

(** [dir.glob("*" + suf)] on the entries of a directory. *)
Definition glob (suf : string) (entries : list (string * DataFrame)) : list DataFrame :=
  map snd (List.filter (fun e => ends_with suf (fst e)) entries).

Definition dir_entries (w : World) (p : string) : list (string * DataFrame) :=
  match data w !! p with Some (Dir es) => es | _ => [] end.

(** How a call ends: normally, or with an exception. *)
Inductive outcome : Type :=
| Done (w : World)
| Failed (e : exn) (w : World).

Definition final (o : outcome) : World :=
  match o with Done w => w | Failed _ w => w end.

Definition attempt {A} (w : World) (r : result A) (k : A -> outcome) : outcome :=
  match r with Ok a => k a | Raise e => Failed e w end.

Definition then_ (o : outcome) (k : World -> outcome) : outcome :=
  match o with Done w => k w | Failed e w => Failed e w end.

Notation "'try' x ⇐ r 'at' w ; k" := (attempt w r (fun x => k))
  (at level 10, x name, r at level 100, w at level 9, k at level 200).

(** ** Mapping tables *)

(** [df.iter_rows(named=True)]: each row as a dictionary keyed by column. *)
Definition named_row (cols : list string) (r : list cell) : gmap string cell :=
  list_to_map (zip cols r).

Definition iter_rows (df : DataFrame) : list (gmap string cell) :=
  map (named_row (columns df)) (rows df).

(** [row[key]] *)
Definition getitem (row : gmap string cell) (key : string) : result cell :=
  match row !! key with Some v => Ok v | None => Raise KeyError end.

(** [row.get(key, "")] *)
Definition get_or_empty (row : gmap string cell) (key : string) : cell :=
  default (Str "") (row !! key).

(** [list(mapping_dir.glob("*.csv"))].  [mappings_dir] gives, for each
    directory under [mappings/], its [*.csv] files in the order in which
    [glob] lists them, each with the table [pl.read_csv] makes of it; a
    directory that does not exist has none. *)
Definition glob_csv (mappings_dir : gmap string (list (string * DataFrame)))
    (mapping_type : string) : list (string * DataFrame) :=
  default [] (mappings_dir !! mapping_type).

(** [load_mappings(mapping_type)] *)
Definition load_mappings (mappings_dir : gmap string (list (string * DataFrame)))
    (mapping_type : string) : result DataFrame :=
  let csv_files := glob_csv mappings_dir mapping_type in
  match csv_files with
  | [] => Raise FileNotFoundError
  | f :: _ => Ok (snd f)
  end.

Definition get_source_column (source : string) : string := source +:+ "_ids".

Record OpenCLIFETL : Type := mkETL {
  source : string;
  source_col : string;
  vitals_map : DataFrame;
  labs_map : DataFrame;
  meds_map : DataFrame;
  resp_map : DataFrame
}.

(** [OpenCLIFETL.__init__] *)
Definition __init__ (mappings_dir : gmap string (list (string * DataFrame)))
    (source : string) (w : World) : result (OpenCLIFETL * World) :=
  vitals ← load_mappings mappings_dir "vitals";
  labs ← load_mappings mappings_dir "labs";
  meds ← load_mappings mappings_dir "medications";
  resp ← load_mappings mappings_dir "respiratory_support";
  Ok (mkETL source (get_source_column source) vitals labs meds resp,
      print (LoadedMappings source (height vitals) (height labs)
               (height meds) (height resp)) w).

(** ** Identifier resolvers *)

(** Truth value of a Python object read from a table. *)
Definition truthy (v : cell) : bool :=
  match v with
  | Null => false
  | Int z => negb (z =? 0)%Z
  | Float q => negb (Qeq_bool q 0)
  | Str s => Py.nonempty s
  end.

(** The text [str(ids)] of an identifier field when the guard
    [ids and str(ids) != "nan" and str(ids).strip()] lets it through.  The
    text of a float always has a point, an exponent, or is [inf] or [nan],
    so none of its elements passes [isdigit]: such a field adds no key and
    is treated like a rejected one. *)
Definition ids_text (ids : cell) : option string :=
  let guard s :=
    if truthy ids && negb (String.eqb s "nan") && Py.nonempty (Py.strip s)
    then Some s else None in
  match ids with
  | Null => None
  | Str s => guard s
  | Int z => guard (Py.str_of_int z)
  | Float _ => None
  end.

(** One pass of the inner loop:
    [sid = sid.strip(); if sid.isdigit(): id_map[int(sid)] = row[cat_col]]. *)
Definition add_id (row : gmap string cell) (cat_col : string)
    (id_map : gmap Z cell) (sid : string) : result (gmap Z cell) :=
  let sid := Py.strip sid in
  if Py.isdigit sid then
    cat ← getitem row cat_col;
    match Py.int sid with
    | Some k => Ok (<[k := cat]> id_map)
    | None => Raise ValueError
    end
  else Ok id_map.

(** The body of the loop over the rows of a mapping table. *)
Definition add_row (ids_col cat_col : string) (id_map : gmap Z cell)
    (row : gmap string cell) : result (gmap Z cell) :=
  match ids_text (get_or_empty row ids_col) with
  | Some text => for_each (Py.split ";" text) (add_id row cat_col) id_map
  | None => Ok id_map
  end.

(** [for row in table.iter_rows(named=True): ...] of the adapters keyed by
    a numeric identifier, started from the dictionary built so far. *)
Definition build_id_map (ids_col cat_col : string) (table : DataFrame)
    (id_map : gmap Z cell) : result (gmap Z cell) :=
  for_each (iter_rows table) (add_row ids_col cat_col) id_map.

(** The loop of [_etl_eicu_labs]:
    [if eicu_ids and str(eicu_ids) != "nan":
       lab_map[eicu_ids.lower()] = row["lab_category"]]. *)
Definition add_lab_row (lab_map : gmap string cell) (row : gmap string cell)
    : result (gmap string cell) :=
  let eicu_ids := get_or_empty row "eicu_ids" in
  match eicu_ids with
  | Str s =>
      if truthy eicu_ids && negb (String.eqb s "nan")
      then cat ← getitem row "lab_category"; Ok (<[Py.lower s := cat]> lab_map)
      else Ok lab_map
  | Int _ | Float _ =>
      if truthy eicu_ids
      then _ ← getitem row "lab_category"; Raise AttributeError
      else Ok lab_map
  | Null => Ok lab_map
  end.

Definition build_lab_map (table : DataFrame) : result (gmap string cell) :=
  for_each (iter_rows table) add_lab_row ∅.

(** [list(id_map.keys())] *)
Definition keys {K V} `{Countable K} (m : gmap K V) : list K := (map_to_list m).*1.

(** ** eICU *)

Definition eicu_vital_map : list (string * string) :=
  [ ("temperature", "temp_c");
    ("heartrate", "heart_rate");
    ("systemicsystolic", "sbp");
    ("systemicdiastolic", "dbp");
    ("sao2", "spo2");
    ("respiration", "respiratory_rate");
    ("systemicmean", "map") ].

Definition _etl_eicu_vitals (self : OpenCLIFETL) (w : World) : outcome :=
  let vital_file := "vitalperiodic.csv" in
  if negb (exists_ w vital_file)
  then Done (print (Skipping "vitals" "vitalperiodic.csv") w)
  else
    let w := print (Processing "vitals" "vitalperiodic.csv") w in
    try df ⇐ scan_csv w vital_file at w;
    let available_cols := columns df in
    let cols_to_extract :=
      ["patientunitstayid"; "observationoffset"]
        ++ List.filter (fun c => bool_decide (c ∈ available_cols))
             (map fst eicu_vital_map) in
    try df ⇐ select cols_to_extract df at w;
    let id_cols := ["patientunitstayid"; "observationoffset"] in
    let value_cols :=
      List.filter (fun c => negb (bool_decide (c ∈ id_cols))) cols_to_extract in
    match value_cols with
    | [] => Done w
    | _ :: _ =>
        try df_long ⇐ unpivot id_cols value_cols "eicu_col" "vital_value" df at w;
        try df_long ⇐ with_columns "eicu_col" (replace (lookup_dict eicu_vital_map))
                        "vital_category" df_long at w;
        try df_clif ⇐ rename [ ("patientunitstayid", "hospitalization_id");
                               ("observationoffset", "recorded_dttm_offset_min") ]
                        df_long at w;
        try df_clif ⇐ select [ "hospitalization_id"; "recorded_dttm_offset_min";
                               "vital_category"; "vital_value" ] df_clif at w;
        try df_clif ⇐ filter_col "vital_value" is_not_null df_clif at w;
        let w := write_parquet "vitals.parquet" df_clif w in
        Done (print (Wrote (height df_clif) "vitals.parquet") w)
    end.

Definition _etl_eicu_labs (self : OpenCLIFETL) (w : World) : outcome :=
  let lab_file := "lab.csv" in
  if negb (exists_ w lab_file)
  then Done (print (Skipping "labs" "lab.csv") w)
  else
    let w := print (Processing "labs" "lab.csv") w in
    try lab_map ⇐ build_lab_map (labs_map self) at w;
    try df ⇐ scan_csv w lab_file at w;
    try df ⇐ select [ "patientunitstayid"; "labresultoffset"; "labname"; "labresult" ]
               df at w;
    try df ⇐ with_columns "labname"
               (fun c => replace (lookup_str lab_map) (to_lowercase c))
               "lab_category" df at w;
    try df_clif ⇐ rename [ ("patientunitstayid", "hospitalization_id");
                           ("labresultoffset", "lab_collect_dttm_offset_min");
                           ("labresult", "lab_value") ] df at w;
    try df_clif ⇐ select [ "hospitalization_id"; "lab_collect_dttm_offset_min";
                           "lab_category"; "lab_value" ] df_clif at w;
    try df_clif ⇐ filter_col "lab_value" is_not_null df_clif at w;
    let w := write_parquet "labs.parquet" df_clif w in
    Done (print (Wrote (height df_clif) "labs.parquet") w).

Definition etl_eicu (self : OpenCLIFETL) (w : World) : outcome :=
  let w := print (Starting "eICU") w in
  let required_files := ["patient.csv"; "vitalperiodic.csv"; "lab.csv"] in
  let w := fold_left (fun w f => if exists_ w f then w else print (MissingFile f) w)
             required_files w in
  then_ (_etl_eicu_vitals self w) (_etl_eicu_labs self).

(** ** The tail shared by the adapters keyed by a numeric identifier

    From [mapped_ids = list(id_map.keys())] to the final [print]; the four
    adapters differ in the names below only. *)

Record long_names : Type := mkNames {
  id_col : string;        (* native item identifier *)
  enc_col : string;       (* native encounter identifier *)
  time_col : string;      (* native time column *)
  val_col : string;       (* native value column *)
  time_name : string;     (* canonical time column *)
  cat_name : string;      (* canonical category column *)
  val_name : string;      (* canonical value column *)
  out_file : string;
  what : string           (* wording of the no-match warning *)
}.

Definition clif_columns (n : long_names) : list string :=
  ["hospitalization_id"; time_name n; cat_name n; val_name n].

Definition long_tail (n : long_names) (id_map : gmap Z cell) (df : DataFrame)
    (w : World) : outcome :=
  let mapped_ids := keys id_map in
  try df ⇐ filter_col (id_col n) (is_in mapped_ids) df at w;
  if (height df =? 0)%nat
  then Done (print (NoMatching (what n)) w)
  else
    try category ⇐ replace_int id_map at w;
    try df ⇐ with_columns (id_col n) category (cat_name n) df at w;
    try df_clif ⇐ rename [ (enc_col n, "hospitalization_id");
                           (time_col n, time_name n);
                           (val_col n, val_name n) ] df at w;
    try df_clif ⇐ select (clif_columns n) df_clif at w;
    try df_clif ⇐ filter_col (val_name n) is_not_null df_clif at w;
    let w := write_parquet (out_file n) df_clif w in
    Done (print (Wrote (height df_clif) (out_file n)) w).

(** ** SICdb *)

Definition sic_vitals_names : long_names :=
  {| id_col := "DataID";
     enc_col := "CaseID";
     time_col := "Offset";
     val_col := "Val";
     time_name := "recorded_dttm_offset_min";
     cat_name := "vital_category";
     val_name := "vital_value";
     out_file := "vitals.parquet";
     what := "DataIDs" |}.

Definition sic_labs_names : long_names :=
  {| id_col := "LaboratoryID";
     enc_col := "CaseID";
     time_col := "Offset";
     val_col := "LaboratoryValue";
     time_name := "lab_collect_dttm_offset_min";
     cat_name := "lab_category";
     val_name := "lab_value";
     out_file := "labs.parquet";
     what := "LaboratoryIDs" |}.

(** [f.csv] if it exists, else [f.parquet]. *)
Definition csv_or_parquet (w : World) (stem : string) : string :=
  if exists_ w (stem +:+ ".csv") then stem +:+ ".csv" else stem +:+ ".parquet".

Definition scan_by_suffix (w : World) (file : string) : result DataFrame :=
  if ends_with ".parquet" file then scan_parquet w file else scan_csv w file.

Definition _etl_sic_vitals (self : OpenCLIFETL) (w : World) : outcome :=
  let vital_file := csv_or_parquet w "data_float_h" in
  if negb (exists_ w vital_file)
  then Done (print (Skipping "vitals" "data_float_h") w)
  else
    let w := print (Processing "vitals" vital_file) w in
    try id_map ⇐ build_id_map "sic_ids" "vital_category" (vitals_map self) ∅ at w;
    let w := print (Mapping (size id_map) "SIC DataIDs") w in
    try df ⇐ scan_by_suffix w vital_file at w;
    long_tail sic_vitals_names id_map df w.

Definition _etl_sic_labs (self : OpenCLIFETL) (w : World) : outcome :=
  let lab_file := csv_or_parquet w "laboratory" in
  if negb (exists_ w lab_file)
  then Done (print (Skipping "labs" "laboratory") w)
  else
    let w := print (Processing "labs" lab_file) w in
    try id_map ⇐ build_id_map "sic_ids" "lab_category" (labs_map self) ∅ at w;
    let w := print (Mapping (size id_map) "SIC LaboratoryIDs") w in
    try df ⇐ scan_by_suffix w lab_file at w;
    long_tail sic_labs_names id_map df w.

Definition etl_sic (self : OpenCLIFETL) (w : World) : outcome :=
  let w := print (Starting "SICdb") w in
  then_ (_etl_sic_vitals self w) (_etl_sic_labs self).

(** ** HiRID *)

Definition hirid_names : long_names :=
  {| id_col := "variableid";
     enc_col := "patientid";
     time_col := "datetime";
     val_col := "value";
     time_name := "recorded_dttm";
     cat_name := "vital_category";
     val_name := "vital_value";
     out_file := "vitals.parquet";
     what := "variableids" |}.

(** The dictionary of [_etl_hirid_vitals] and [_etl_aumc_vitals]: the
    vitals table first, then the labs table on top of it. *)
Definition build_merged_id_map (ids_col : string) (self : OpenCLIFETL)
    : result (gmap Z cell) :=
  id_map ← build_id_map ids_col "vital_category" (vitals_map self) ∅;
  build_id_map ids_col "lab_category" (labs_map self) id_map.

Definition _etl_hirid_vitals (self : OpenCLIFETL) (w : World) : outcome :=
  let obs_dir :=
    if exists_ w "observation_tables" then "observation_tables" else "observations" in
  (* [obs_file] is bound only when [obs_dir] does not exist *)
  let obs_file : option string :=
    if exists_ w obs_dir then None else Some "observations.parquet" in
  if negb (exists_ w obs_dir) && negb (exists_ w "observations.parquet")
  then Done (print (Skipping "vitals" "observations") w)
  else
    let w := print (Processing "vitals" "observations") w in
    try id_map ⇐ build_merged_id_map "hirid_ids" self at w;
    let w := print (Mapping (size id_map) "HiRID variableids") w in
    try df ⇐ (if is_dir w obs_dir then
                let parquet_files := glob ".parquet" (dir_entries w obs_dir) in
                match parquet_files with
                | _ :: _ => scan_files parquet_files
                | [] => scan_files (glob ".csv" (dir_entries w obs_dir))
                end
              else
                match obs_file with
                | Some f => scan_parquet w f
                | None => Raise UnboundLocalError
                end) at w;
    long_tail hirid_names id_map df w.

Definition _etl_hirid_labs (self : OpenCLIFETL) (w : World) : outcome :=
  Done (print (LabsIncluded "observations") w).

Definition etl_hirid (self : OpenCLIFETL) (w : World) : outcome :=
  let w := print (Starting "HiRID") w in
  then_ (_etl_hirid_vitals self w) (_etl_hirid_labs self).

(** ** AmsterdamUMCdb *)

Definition aumc_names : long_names :=
  {| id_col := "itemid";
     enc_col := "admissionid";
     time_col := "measuredat";
     val_col := "value";
     time_name := "recorded_dttm";
     cat_name := "vital_category";
     val_name := "vital_value";
     out_file := "vitals.parquet";
     what := "itemids" |}.

Definition _etl_aumc_vitals (self : OpenCLIFETL) (w : World) : outcome :=
  let vital_file := csv_or_parquet w "numericitems" in
  if negb (exists_ w vital_file)
  then Done (print (Skipping "vitals" "numericitems") w)
  else
    let w := print (Processing "vitals" vital_file) w in
    try id_map ⇐ build_merged_id_map "aumc_ids" self at w;
    let w := print (Mapping (size id_map) "AUMC itemids") w in
    try df ⇐ scan_by_suffix w vital_file at w;
    long_tail aumc_names id_map df w.

Definition _etl_aumc_labs (self : OpenCLIFETL) (w : World) : outcome :=
  Done (print (LabsIncluded "numericitems") w).

Definition etl_aumc (self : OpenCLIFETL) (w : World) : outcome :=
  let w := print (Starting "AUMC") w in
  then_ (_etl_aumc_vitals self w) (_etl_aumc_labs self).

(** ** [OpenCLIFETL.run] *)

Definition run (self : OpenCLIFETL) (w : World) : outcome :=
  let w := print (Banner (source self)) w in
  let body :=
    if String.eqb (source self) "eicu" then etl_eicu self w
    else if String.eqb (source self) "sic" then etl_sic self w
    else if String.eqb (source self) "hirid" then etl_hirid self w
    else if String.eqb (source self) "aumc" then etl_aumc self w
    else Failed ValueError w in
  then_ body (fun w => Done (print Complete w)).

(** * Vocabulary of the properties *)

(** The identifier in cell [c] is a key of the lookup [m]. *)
Definition is_key (m : gmap Z cell) (c : cell) : bool :=
  match c with Int k => bool_decide (is_Some (m !! k)) | _ => false end.

(** No native row carries a mapped identifier. *)
Definition no_match (n : long_names) (m : gmap Z cell) (df : DataFrame) : bool :=
  forallb (fun r => negb (is_key m (cell_at (columns df) (id_col n) r))) (rows df).

(** ** The adapters keyed by a numeric identifier *)

Inductive id_adapter : Type := SicVitals | SicLabs | HiridVitals | AumcVitals.

Definition run_id_adapter (a : id_adapter) : OpenCLIFETL -> World -> outcome :=
  match a with
  | SicVitals => _etl_sic_vitals
  | SicLabs => _etl_sic_labs
  | HiridVitals => _etl_hirid_vitals
  | AumcVitals => _etl_aumc_vitals
  end.

Definition names (a : id_adapter) : long_names :=
  match a with
  | SicVitals => sic_vitals_names
  | SicLabs => sic_labs_names
  | HiridVitals => hirid_names
  | AumcVitals => aumc_names
  end.

(** The Resolved Lookup of an adapter. *)
Definition resolve (a : id_adapter) (self : OpenCLIFETL) : result (gmap Z cell) :=
  match a with
  | SicVitals => build_id_map "sic_ids" "vital_category" (vitals_map self) ∅
  | SicLabs => build_id_map "sic_ids" "lab_category" (labs_map self) ∅
  | HiridVitals => build_merged_id_map "hirid_ids" self
  | AumcVitals => build_merged_id_map "aumc_ids" self
  end.

(** [stem.csv] or else [stem.parquet], read, if one of them exists. *)
Definition one_of (w : World) (stem : string) : option (result DataFrame) :=
  let file := csv_or_parquet w stem in
  if exists_ w file then Some (scan_by_suffix w file) else None.

(** What [_etl_hirid_vitals] reads when [obs_dir] exists: the parquet
    files of the directory, or else its csv files; when [obs_dir] is not a
    directory the adapter refers to [obs_file], which it has not bound. *)
Definition scan_obs_dir (w : World) (obs_dir : string) : result DataFrame :=
  match data w !! obs_dir with
  | Some (Dir es) =>
      match glob ".parquet" es with
      | _ :: _ => scan_files (glob ".parquet" es)
      | [] => scan_files (glob ".csv" es)
      end
  | _ => Raise UnboundLocalError
  end.

(** The native table of an adapter: [None] when the required source does
    not exist, otherwise what reading it gives. *)
Definition native (a : id_adapter) (w : World) : option (result DataFrame) :=
  match a with
  | SicVitals => one_of w "data_float_h"
  | SicLabs => one_of w "laboratory"
  | AumcVitals => one_of w "numericitems"
  | HiridVitals =>
      if exists_ w "observation_tables" then Some (scan_obs_dir w "observation_tables")
      else if exists_ w "observations" then Some (scan_obs_dir w "observations")
      else if exists_ w "observations.parquet"
      then Some (scan_parquet w "observations.parquet")
      else None
  end.

Definition skipping (a : id_adapter) : log_line :=
  match a with
  | SicVitals => Skipping "vitals" "data_float_h"
  | SicLabs => Skipping "labs" "laboratory"
  | HiridVitals => Skipping "vitals" "observations"
  | AumcVitals => Skipping "vitals" "numericitems"
  end.

Definition processing (a : id_adapter) (w : World) : log_line :=
  match a with
  | SicVitals => Processing "vitals" (csv_or_parquet w "data_float_h")
  | SicLabs => Processing "labs" (csv_or_parquet w "laboratory")
  | HiridVitals => Processing "vitals" "observations"
  | AumcVitals => Processing "vitals" (csv_or_parquet w "numericitems")
  end.

Definition mapping (a : id_adapter) (size : nat) : log_line :=
  match a with
  | SicVitals => Mapping size "SIC DataIDs"
  | SicLabs => Mapping size "SIC LaboratoryIDs"
  | HiridVitals => Mapping size "HiRID variableids"
  | AumcVitals => Mapping size "AUMC itemids"
  end.

(** The world in which the long-format tail of [a] starts. *)
Definition started (a : id_adapter) (m : gmap Z cell) (w : World) : World :=
  print (mapping a (size m)) (print (processing a w) w).

(** ** Vocabulary of the resolver *)

(** The key an element of an identifier list stands for, if any. *)
Definition key_of (sid : string) : option Z :=
  let sid := Py.strip sid in
  if Py.isdigit sid then Py.int sid else None.

(** The normalized identifiers a mapping entry claims for a dataset. *)
Definition claimed_keys (ids_col : string) (row : gmap string cell) : list Z :=
  match ids_text (get_or_empty row ids_col) with
  | Some text => omap key_of (Py.split ";" text)
  | None => []
  end.

(** The identifier-list column an adapter reads in the mapping tables. *)
Definition ids_column (a : id_adapter) : string :=
  match a with
  | SicVitals | SicLabs => "sic_ids"
  | HiridVitals => "hirid_ids"
  | AumcVitals => "aumc_ids"
  end.

(** ** All adapters and the dataset drivers *)

Inductive adapter : Type :=
| EicuVitals
| EicuLabs
| Keyed (a : id_adapter)
| HiridLabs
| AumcLabs.

Definition run_adapter (a : adapter) : OpenCLIFETL -> World -> outcome :=
  match a with
  | EicuVitals => _etl_eicu_vitals
  | EicuLabs => _etl_eicu_labs
  | Keyed a => run_id_adapter a
  | HiridLabs => _etl_hirid_labs
  | AumcLabs => _etl_aumc_labs
  end.



(** The line an adapter prints when it skips; for the two adapters that
    read nothing, the line they print. *)
Definition skip_line (a : adapter) : log_line :=
  match a with
  | EicuVitals => Skipping "vitals" "vitalperiodic.csv"
  | EicuLabs => Skipping "labs" "lab.csv"
  | Keyed a => skipping a
  | HiridLabs => LabsIncluded "observations"
  | AumcLabs => LabsIncluded "numericitems"
  end.

Inductive dataset : Type := Eicu | Sic | Hirid | Aumc.

Definition etl (ds : dataset) : OpenCLIFETL -> World -> outcome :=
  match ds with
  | Eicu => etl_eicu
  | Sic => etl_sic
  | Hirid => etl_hirid
  | Aumc => etl_aumc
  end.

Definition vitals_step (ds : dataset) : adapter :=
  match ds with
  | Eicu => EicuVitals
  | Sic => Keyed SicVitals
  | Hirid => Keyed HiridVitals
  | Aumc => Keyed AumcVitals
  end.

Definition labs_step (ds : dataset) : adapter :=
  match ds with
  | Eicu => EicuLabs
  | Sic => Keyed SicLabs
  | Hirid => HiridLabs
  | Aumc => AumcLabs
  end.

(** The world in which a driver calls its first adapter. *)
Definition opened (ds : dataset) (w : World) : World :=
  match ds with
  | Eicu =>
      fold_left (fun w f => if exists_ w f then w else print (MissingFile f) w)
        ["patient.csv"; "vitalperiodic.csv"; "lab.csv"] (print (Starting "eICU") w)
  | Sic => print (Starting "SICdb") w
  | Hirid => print (Starting "HiRID") w
  | Aumc => print (Starting "AUMC") w
  end.

(** ** Vocabulary of the eICU adapters *)

Definition lab_columns : list string :=
  ["hospitalization_id"; "lab_collect_dttm_offset_min"; "lab_category"; "lab_value"].

(** The canonical record of a [lab.csv] row. *)
Definition lab_record (lab_map : gmap string cell) (cols : list string) (r : list cell) : list cell :=
  [ cell_at cols "patientunitstayid" r; cell_at cols "labresultoffset" r;
    replace (lookup_str lab_map) (to_lowercase (cell_at cols "labname" r));
    cell_at cols "labresult" r ].

Definition vital_columns : list string :=
  ["hospitalization_id"; "recorded_dttm_offset_min"; "vital_category"; "vital_value"].

(** The value columns the adapter extracts, in the order of
    [eicu_vital_map]. *)
Definition value_cols_of (available : list string) : list string :=
  List.filter (fun c => bool_decide (c ∈ available)) (map fst eicu_vital_map).

(** The long form of a wide table: each value column paired with each
    row, the columns one after the other. *)
Definition long_pairs (value_cols : list string) (rs : list (list cell))
    : list (string * list cell) :=
  flat_map (fun c => map (pair c) rs) value_cols.

(** The canonical record of a (column, row) pair. *)
Definition vital_record (cols : list string) (x : string * list cell) : list cell :=
  [ cell_at cols "patientunitstayid" (snd x); cell_at cols "observationoffset" (snd x);
    replace (lookup_dict eicu_vital_map) (Str (fst x)); cell_at cols (fst x) (snd x) ].

(** The value cell of a canonical record. *)
Definition value_of (record : list cell) : cell := nth 3 record Null.

(** A mapping entry the resolver handles without raising: each element of
    its identifier list that passes [isdigit] is made of decimal digits,
    and the entry then has its category column. *)
Definition tolerated_row (ids_col cat_col : string) (row : gmap string cell) : bool :=
  match ids_text (get_or_empty row ids_col) with
  | Some text =>
      forallb (fun sid =>
                 negb (Py.isdigit (Py.strip sid))
                 || (Py.isdecimal (Py.strip sid)
                     && bool_decide (is_Some (row !! cat_col))))
        (Py.split ";" text)
  | None => true
  end.

(** ** Sample inputs *)

Definition no_table : DataFrame := mkDF [] [].

Definition fresh (d : gmap string node) : World := mkWorld d ∅ [].

(** A vitals mapping table with one entry, [temp_c], listed for SICdb
    under the identifiers 10, 20 and 30. *)
Definition sample_vitals_map : DataFrame :=
  mkDF ["vital_category"; "sic_ids"] [ [Str "temp_c"; Str "10; 20;30"] ].

Definition sample_sic_etl : OpenCLIFETL :=
  mkETL "sic" "sic_ids" sample_vitals_map no_table no_table no_table.

Definition sample_lookup : gmap Z cell :=
  <[30%Z := Str "temp_c"]> (<[20%Z := Str "temp_c"]> (<[10%Z := Str "temp_c"]> ∅)).

(** [data_float_h.csv] with a single row, whose DataID 999 is not mapped. *)
Definition unmapped_table : DataFrame :=
  mkDF ["CaseID"; "Offset"; "DataID"; "Val"] [ [Int 7; Int 12; Int 999; Float 5] ].

Definition unmapped_world : World :=
  fresh {[ "data_float_h.csv" := File unmapped_table ]}.

(** [data_float_h.csv] with a mapped row, an unmapped row and a mapped row
    without a value. *)
Definition sic_table : DataFrame :=
  mkDF ["CaseID"; "Offset"; "DataID"; "Val"]
    [ [Int 7; Int 10; Int 10; Float (369 # 10)];
      [Int 7; Int 12; Int 999; Float 5];
      [Int 7; Int 13; Int 20; Null] ].

Definition sic_world : World := fresh {[ "data_float_h.csv" := File sic_table ]}.

(** Two vitals entries that both list the identifier 20 for SICdb. *)
Definition overlapping_map : DataFrame :=
  mkDF ["vital_category"; "sic_ids"]
    [ [Str "temp_c"; Str "10; 20"]; [Str "heart_rate"; Str "20"] ].

(** A vitals entry and a labs entry that both list 7 for HiRID. *)
Definition hirid_vitals_map : DataFrame :=
  mkDF ["vital_category"; "hirid_ids"] [ [Str "heart_rate"; Str "7; 8"] ].

Definition hirid_labs_map : DataFrame :=
  mkDF ["lab_category"; "hirid_ids"] [ [Str "lactate"; Str "7"] ].

Definition sample_hirid_etl : OpenCLIFETL :=
  mkETL "hirid" "hirid_ids" hirid_vitals_map hirid_labs_map no_table no_table.

(** The one-character string U+00B2 (superscript two). *)
Definition superscript_two : string := String (Py.chr 178) EmptyString.

(** A vitals entry whose SICdb list is that character. *)
Definition superscript_map : DataFrame :=
  mkDF ["vital_category"; "sic_ids"] [ [Str "temp_c"; Str superscript_two] ].

Definition superscript_etl : OpenCLIFETL :=
  mkETL "sic" "sic_ids" superscript_map no_table no_table no_table.

(** A labs entry that lists two eICU labels. *)
Definition two_label_map : DataFrame :=
  mkDF ["lab_category"; "eicu_ids"] [ [Str "bicarbonate"; Str "bicarbonate; HCO3"] ].

Definition two_label_etl : OpenCLIFETL :=
  mkETL "eicu" "eicu_ids" no_table two_label_map no_table no_table.

(** [lab.csv] with one HCO3 result. *)
Definition hco3_table : DataFrame :=
  mkDF ["patientunitstayid"; "labresultoffset"; "labname"; "labresult"]
    [ [Int 1; Int 3; Str "HCO3"; Float 24] ].

Definition hco3_world : World := fresh {[ "lab.csv" := File hco3_table ]}.

(** A [mappings/vitals] directory with two candidate files. *)
Definition two_candidates : gmap string (list (string * DataFrame)) :=
  {[ "vitals" := [ ("a.csv", sample_vitals_map); ("b.csv", overlapping_map) ] ]}.

(** A HiRID source directory with one observations file: a heart-rate
    reading (8), a lactate reading (7) and an unmapped reading. *)
Definition observations_table : DataFrame :=
  mkDF ["patientid"; "datetime"; "variableid"; "value"]
    [ [Int 3; Str "2100-01-01 10:00"; Int 8; Float 72];
      [Int 3; Str "2100-01-01 10:05"; Int 7; Float (21 # 10)];
      [Int 3; Str "2100-01-01 10:10"; Int 99; Float 1] ].

Definition hirid_world : World :=
  fresh {[ "observation_tables" := Dir [ ("part-0.parquet", observations_table) ] ]}.

(** A source directory without any file. *)
Definition empty_world : World := fresh ∅.

(** A labs entry with a single eICU label. *)
Definition albumin_map : DataFrame :=
  mkDF ["lab_category"; "eicu_ids"] [ [Str "albumin"; Str "Albumin"] ].

Definition albumin_etl : OpenCLIFETL :=
  mkETL "eicu" "eicu_ids" no_table albumin_map no_table no_table.

(** [lab.csv] with a mapped label, an unmapped label and a result without
    a value. *)
Definition lab_table : DataFrame :=
  mkDF ["patientunitstayid"; "labresultoffset"; "labname"; "labresult"]
    [ [Int 1; Int 3; Str "ALBUMIN"; Float 4];
      [Int 1; Int 5; Str "PaO2"; Float 90];
      [Int 1; Int 7; Str "albumin"; Null] ].

Definition lab_world : World := fresh {[ "lab.csv" := File lab_table ]}.

(** The wide table of the end-to-end scenario: rows [(1,0,88,37.1)] and
    [(1,5,null,37.2)] under the columns id, time, heartrate, temperature,
    the first two under their eICU names. *)
Definition scenario_table : DataFrame :=
  mkDF ["patientunitstayid"; "observationoffset"; "heartrate"; "temperature"]
    [ [Int 1; Int 0; Int 88; Float (371 # 10)];
      [Int 1; Int 5; Null; Float (372 # 10)] ].

Definition scenario_world : World :=
  fresh {[ "vitalperiodic.csv" := File scenario_table ]}.

(** ** Vocabulary of the run as a whole *)

(** [SUPPORTED_SOURCES] *)
Definition SUPPORTED_SOURCES : list string := ["eicu"; "hirid"; "aumc"; "sic"].

(** The [--source] name of a dataset. *)
Definition source_name (ds : dataset) : string :=
  match ds with Eicu => "eicu" | Sic => "sic" | Hirid => "hirid" | Aumc => "aumc" end.

(** An outcome computed over an empty output directory and a silent
    console, replayed over the output directory [o] and the console [l]:
    the files written overlay [o], the lines printed follow [l]. *)
Definition rebase (o : gmap string DataFrame) (l : list log_line) (out : outcome)
    : outcome :=
  match out with
  | Done w => Done (mkWorld (data w) (output w ∪ o) (l ++ stdout w))
  | Failed e w => Failed e (mkWorld (data w) (output w ∪ o) (l ++ stdout w))
  end.

(** A frame in canonical form: four columns, the first one
    [hospitalization_id], four cells in every row, the last of them (the
    value) not null. *)
Definition canonical_frame (df : DataFrame) : Prop :=
  length (columns df) = 4%nat
  /\ nth 0 (columns df) "" = "hospitalization_id"
  /\ forall r, In r (rows df) -> length r = 4%nat /\ nth 3 r Null <> Null.

(** [F] only reads the source directory: its outcome over any output
    directory and console is its outcome over empty ones, replayed. *)
Definition rebasable (F : World -> outcome) : Prop :=
  forall d o l, F (mkWorld d o l) = rebase o l (F (mkWorld d ∅ [])).

(** What a run may leave in the output directory under the name [f]. *)
Definition canonical_file (f : string) (df : DataFrame) : Prop :=
  (f = "vitals.parquet" \/ f = "labs.parquet") /\ canonical_frame df.

(** Every file found after [F] was there before or is a canonical file. *)
Definition writes_canonical (F : World -> outcome) : Prop :=
  forall w f df,
    output (final (F w)) !! f = Some df ->
    output w !! f = Some df \/ canonical_file f df.

(** [F] leaves the source directory as it is. *)
Definition keeps_data (F : World -> outcome) : Prop :=
  forall w, data (final (F w)) = data w.

(** The files a run writes, given the source directory. *)
Definition writes (self : OpenCLIFETL) (d : gmap string node) : gmap string DataFrame :=
  output (final (run self (mkWorld d ∅ []))).

(** The four directories [__init__] loads, in its order. *)
Definition mapping_types : list string :=
  ["vitals"; "labs"; "medications"; "respiratory_support"].

(** The path [p] of the source directory is a regular file. *)
Definition is_file (w : World) (p : string) : Prop :=
  exists df, data w !! p = Some (File df).

(** ** More sample inputs *)

(** [lab.csv] with its four columns and no row. *)
Definition empty_lab_table : DataFrame :=
  mkDF ["patientunitstayid"; "labresultoffset"; "labname"; "labresult"] [].

Definition empty_lab_world : World := fresh {[ "lab.csv" := File empty_lab_table ]}.

(** [vitalperiodic.csv] with the identifier columns and a column the
    adapter does not know. *)
Definition unknown_vitals_table : DataFrame :=
  mkDF ["patientunitstayid"; "observationoffset"; "cvp"] [ [Int 1; Int 0; Int 9] ].

Definition unknown_vitals_world : World :=
  fresh {[ "vitalperiodic.csv" := File unknown_vitals_table ]}.

(** [data_float_h.csv] without the column [DataID]. *)
Definition headless_table : DataFrame :=
  mkDF ["CaseID"; "Offset"; "Val"] [ [Int 7; Int 13; Float 2] ].

Definition headless_world : World :=
  fresh {[ "data_float_h.csv" := File headless_table ]}.

(** A HiRID source directory where [observations] is a regular file and
    [observations.parquet] exists as well. *)
Definition flat_hirid_world : World :=
  fresh {[ "observations" := File observations_table;
           "observations.parquet" := File observations_table ]}.

(** The key under which [_etl_eicu_labs] enters a mapping entry, if it
    enters it. *)
Definition label_key (row : gmap string cell) : option string :=
  match get_or_empty row "eicu_ids" with
  | Str s => if Py.nonempty s && negb (String.eqb s "nan") then Some (Py.lower s) else None
  | _ => None
  end.

(** A labs entry for albumin under an upper-case label, and an earlier
    entry for something else. *)
Definition cased_map : DataFrame :=
  mkDF ["lab_category"; "eicu_ids"]
    [ [Str "sodium"; Str "sodium"]; [Str "albumin"; Str "ALBUMIN"] ].

Definition cased_etl : OpenCLIFETL :=
  mkETL "eicu" "eicu_ids" no_table cased_map no_table no_table.

(** A vitals mapping table that has no [sic_ids] column. *)
Definition ricu_vitals_map : DataFrame :=
  mkDF ["vital_category"; "hirid_ids"; "aumc_ids"]
    [ [Str "heart_rate"; Str "200"; Str "6640"] ].

Definition ricu_etl : OpenCLIFETL :=
  mkETL "sic" "sic_ids" ricu_vitals_map no_table no_table no_table.

(** * [scripts/build_openclif.py]

    The functions that turn the ricu concept dictionary into the
    identifier columns of the mapping tables.  The JSON read from
    [concept-dict.json] is taken at the types the script relies on: an
    identifier is an integer or a string, the value under ['ids'] is one
    identifier or a list of them, an item is a dictionary of which the keys
    ['ids'], ['regex'] and ['val_var'] are read, and a row of a csv file
    maps column names to strings. *)

Module Build.

Inductive scalar : Type :=
| SInt (z : Z)
| SStr (s : string).

(** [str(x)] *)
Definition str (x : scalar) : string :=
  match x with SInt z => Py.str_of_int z | SStr s => s end.

Inductive ids_value : Type :=
| One (x : scalar)
| Many (xs : list scalar).

(** An item of a source entry; [None] is an absent key. *)
Record item : Type := mkItem {
  ids : option ids_value;
  regex : option scalar;
  val_var : option scalar
}.

Inductive source_entry : Type :=
| Items (l : list item)
| NotAList.

(** [sep.join(l)] *)
Fixpoint join (sep : string) (l : list string) : string :=
  match l with
  | [] => ""
  | [x] => x
  | x :: xs => x +:+ sep +:+ join sep xs
  end.

(** What one pass of the loop over the items adds to [ids]. *)
Definition item_ids (it : item) : list string :=
  match ids it with
  | Some (Many xs) => map str xs
  | Some (One x) => [str x]
  | None =>
      match regex it with
      | Some r => ["regex:" +:+ str r]
      | None =>
          match val_var it with
          | Some v => ["col:" +:+ str v]
          | None => []
          end
      end
  end.

Definition extract_ids_from_source (source_entry : source_entry) (dataset : string)
    : string :=
  let ids :=
    match source_entry with
    | Items l => flat_map item_ids l
    | NotAList => []
    end in
  match ids with
  | [] => ""
  | _ :: _ => join "; " ids
  end.

(** A concept of the dictionary; [None] is an absent key. *)
Record concept : Type := mkConcept {
  sources : option (gmap string source_entry);
  description : option string;
  category : option string;
  unit : option string
}.

(** The dictionary [parse_ricu_concepts] makes for a concept. *)
Record mapping : Type := mkMapping {
  m_description : string;
  m_category : string;
  m_unit : string;
  mimic_iii_itemid : string;
  mimic_iv_itemid : string;
  eicu_ids : string;
  hirid_ids : string;
  aumc_ids : string
}.

(** [extract_ids_from_source(sources[name], name)] if [name in sources],
    else the initial ['']. *)
Definition ids_for (srcs : gmap string source_entry) (name : string) : string :=
  match srcs !! name with
  | Some e => extract_ids_from_source e name
  | None => ""
  end.

Definition parse_ricu_concepts (concept_dict : gmap string concept)
    : gmap string mapping :=
  omap (fun c =>
          match sources c with
          | None => None
          | Some srcs =>
              Some {| m_description := default "" (description c);
                      m_category := default "" (category c);
                      m_unit := default "" (unit c);
                      mimic_iii_itemid := ids_for srcs "mimic";
                      mimic_iv_itemid := ids_for srcs "miiv";
                      eicu_ids := ids_for srcs "eicu";
                      hirid_ids := ids_for srcs "hirid";
                      aumc_ids := ids_for srcs "aumc" |}
          end) concept_dict.

(** The body of the loop of [enhance_csv_with_mappings]. *)
Definition enhance_row (category_column : string)
    (ricu_mappings : gmap string mapping)
    (clif_to_ricu : gmap string (option string))
    (row : gmap string string) : gmap string string :=
  let category := Py.strip (Py.lower (default "" (row !! category_column))) in
  let ricu_concept : option string := mjoin (clif_to_ricu !! category) in
  let named : option string :=
    match ricu_concept with
    | Some s => if Py.nonempty s then Some s else None
    | None => None
    end in
  let enhanced_row := <["ricu_concept" := default "" named]> row in
  match named ≫= (fun s => ricu_mappings !! s) with
  | Some mapping =>
      <["aumc_ids" := aumc_ids mapping]>
        (<["hirid_ids" := hirid_ids mapping]>
           (<["eicu_ids" := eicu_ids mapping]>
              (<["mimic_iv_itemid" := mimic_iv_itemid mapping]>
                 (<["mimic_iii_itemid" := mimic_iii_itemid mapping]> enhanced_row))))
  | None =>
      <["aumc_ids" := ""]>
        (<["hirid_ids" := ""]>
           (<["eicu_ids" := ""]>
              (<["mimic_iv_itemid" := ""]>
                 (<["mimic_iii_itemid" := ""]> enhanced_row))))
  end.

Definition enhance_csv_with_mappings (input_rows : list (gmap string string))
    (category_column : string) (ricu_mappings : gmap string mapping)
    (clif_to_ricu : gmap string (option string)) : list (gmap string string) :=
  map (enhance_row category_column ricu_mappings clif_to_ricu) input_rows.

(** [l.remove(x)]: the first occurrence goes. *)
Fixpoint remove_first (x : string) (l : list string) : list string :=
  match l with
  | [] => []
  | y :: ys => if String.eqb x y then ys else y :: remove_first x ys
  end.

(** The [fieldnames] of [write_enhanced_csv], from the keys of the first
    row and the extra columns. *)
Definition fieldnames (existing_cols extra_columns : list string) : list string :=
  fold_left (fun existing col =>
               if bool_decide (col ∈ existing) then remove_first col existing
               else existing)
    extra_columns existing_cols
  ++ extra_columns.

(** The columns [main] adds. *)
Definition extra_columns : list string :=
  ["ricu_concept"; "mimic_iii_itemid"; "mimic_iv_itemid"; "eicu_ids"; "hirid_ids";
   "aumc_ids"].

End Build.

(** ** Vocabulary of the mapping builder *)

Definition scalar_integer (x : Build.scalar) : option Z :=
  match x with Build.SInt z => Some z | Build.SStr _ => None end.

(** The integers an item lists under ['ids'], if that is all it lists. *)
Definition item_integers (it : Build.item) : option (list Z) :=
  match Build.ids it with
  | Some (Build.Many xs) => mapM scalar_integer xs
  | Some (Build.One x) => z ← scalar_integer x; Some [z]
  | None => None
  end.

Fixpoint items_integers (l : list Build.item) : option (list Z) :=
  match l with
  | [] => Some []
  | it :: l' => zs ← item_integers it; rest ← items_integers l'; Some (zs ++ rest)
  end.

(** The integers of a source entry whose items all list integers. *)
Definition entry_integers (e : Build.source_entry) : option (list Z) :=
  match e with
  | Build.Items l => items_integers l
  | Build.NotAList => None
  end.

Definition non_negative (z : Z) : bool := (0 <=? z)%Z.

(** The characters of the text of an integer. *)
Definition sign_or_digit (c : ascii) : bool :=
  Py.isdecimal_char c || Ascii.eqb c "-".

(** A row of a csv file as a row of the mapping table polars reads from
    it, every field taken as a string. *)
Definition as_table_row (row : gmap string string) : gmap string cell := Str <$> row.

(** ** Sample inputs of the mapping builder *)

(** The HiRID source of a concept: two items, with the identifiers 200
    and 210, 211. *)
Definition sample_source : Build.source_entry :=
  Build.Items
    [ Build.mkItem (Some (Build.One (Build.SInt 200))) None None;
      Build.mkItem (Some (Build.Many [Build.SInt 210; Build.SInt 211])) None None ].

Definition sample_concepts : gmap string Build.concept :=
  {[ "hr" := Build.mkConcept (Some {[ "hirid" := sample_source ]})
               (Some "heart rate") (Some "vitals") (Some "bpm") ]}.

Definition sample_clif_to_ricu : gmap string (option string) :=
  {[ "heart_rate" := Some "hr"; "ferritin" := None ]}.

Definition sample_csv_row : gmap string string :=
  {[ "vital_category" := "heart_rate"; "description" := "Heart rate in beats per minute" ]}.

(** ** Vocabulary of the source files *)

(** The paths an adapter tries for its native table, in its order. *)
Definition candidates (a : id_adapter) : list string :=
  match a with
  | SicVitals => ["data_float_h.csv"; "data_float_h.parquet"]
  | SicLabs => ["laboratory.csv"; "laboratory.parquet"]
  | HiridVitals => ["observation_tables"; "observations"; "observations.parquet"]
  | AumcVitals => ["numericitems.csv"; "numericitems.parquet"]
  end.

(** What a call leaves behind, apart from the source directory. *)
Definition effects (out : outcome) : option exn * gmap string DataFrame * list log_line :=
  match out with
  | Done w => (None, output w, stdout w)
  | Failed e w => (Some e, output w, stdout w)
  end.

(** A SICdb source directory with both forms of the vitals table. *)
Definition both_forms_world : World :=
  fresh (<[ "data_float_h.parquet" := File unmapped_table ]> (data sic_world)).

(** * Properties *)

(** ** Columns and cells *)

Lemma index_of_Some cols c i :
  index_of c cols = Some i -> (i < length cols)%nat /\ nth_error cols i = Some c.
Proof.
  revert i. induction cols as [|x xs IH]; simpl; intros i H; [discriminate|].
  destruct (String.eqb_spec c x) as [->|Hne].
  - inversion H; subst. simpl. split; [lia|reflexivity].
  - destruct (index_of c xs) as [j|]; [|discriminate].
    inversion H; subst. destruct (IH j eq_refl) as [Hlt Hn].
    simpl. split; [lia|exact Hn].
Qed.

Lemma has_column_In cols c : has_column cols c = true <-> In c cols.
Proof.
  unfold has_column. induction cols as [|x xs IH]; simpl.
  - split; [discriminate|tauto].
  - destruct (String.eqb_spec c x) as [->|Hne]; simpl.
    + split; auto.
    + destruct (index_of c xs); simpl in *.
      * split; [intros _; right; apply IH; reflexivity|reflexivity].
      * split; [discriminate|]. intros [->|Hin]; [congruence|]. apply IH, Hin.
Qed.

Lemma index_of_None cols c : index_of c cols = None <-> ~ In c cols.
Proof.
  rewrite <- has_column_In. unfold has_column.
  destruct (index_of c cols); split; congruence.
Qed.

Lemma filter_map_comm {A B} (g : A -> B) (q : B -> bool) (l : list A) :
  List.filter q (map g l) = map g (List.filter (fun a => q (g a)) l).
Proof.
  induction l as [|a l IH]; simpl; [reflexivity|].
  destruct (q (g a)); simpl; rewrite IH; reflexivity.
Qed.

(** ** The resolved lookup as a key set *)

Lemma elem_of_keys {V} (m : gmap Z V) (k : Z) : k ∈ keys m <-> is_Some (m !! k).
Proof.
  unfold keys. rewrite list_elem_of_fmap. split.
  - intros [[k' v] [-> Hin]]. apply elem_of_map_to_list in Hin. eauto.
  - intros [v Hv]. exists (k, v). split; [reflexivity|].
    apply elem_of_map_to_list. exact Hv.
Qed.

Lemma is_in_keys m c : is_in (keys m) c = is_key m c.
Proof.
  destruct c; simpl; try reflexivity.
  apply bool_decide_ext, elem_of_keys.
Qed.

(** ** The long-format tail *)

Lemma filter_length_0 {A} (p : A -> bool) (l : list A) :
  (length (List.filter p l) =? 0)%nat = forallb (fun a => negb (p a)) l.
Proof.
  induction l as [|a l IH]; simpl; [reflexivity|].
  destruct (p a); simpl; [reflexivity|exact IH].
Qed.

(** ** The adapters keyed by a numeric identifier *)

Lemma run_id_adapter_unfold a self w :
  run_id_adapter a self w =
    match native a w with
    | None => Done (print (skipping a) w)
    | Some rd =>
        let w1 := print (processing a w) w in
        try m ⇐ resolve a self at w1;
        try df ⇐ rd at (started a m w);
        long_tail (names a) m df (started a m w)
    end.
Proof.
  destruct a; cbn [run_id_adapter native resolve skipping processing names].
  - unfold _etl_sic_vitals, one_of.
    destruct (exists_ w (csv_or_parquet w "data_float_h")); reflexivity.
  - unfold _etl_sic_labs, one_of.
    destruct (exists_ w (csv_or_parquet w "laboratory")); reflexivity.
  - unfold _etl_hirid_vitals, scan_obs_dir, is_dir, dir_entries, exists_,
      scan_parquet, scan_file.
    cbn [data print].
    destruct (data w !! "observation_tables") as [[?|es]|] eqn:E1; cbn [negb andb].
    + rewrite E1. reflexivity.
    + rewrite E1. cbn [negb andb]. destruct (glob ".parquet" es); reflexivity.
    + destruct (data w !! "observations") as [[?|es]|] eqn:E2; cbn [negb andb].
      * reflexivity.
      * destruct (glob ".parquet" es); reflexivity.
      * destruct (data w !! "observations.parquet") as [[?|?]|]; reflexivity.
  - unfold _etl_aumc_vitals, one_of.
    destruct (exists_ w (csv_or_parquet w "numericitems")); reflexivity.
Qed.

Lemma long_tail_no_match n m df w :
  has_column (columns df) (id_col n) = true -> no_match n m df = true ->
  long_tail n m df w = Done (print (NoMatching (what n)) w).
Proof.
  intros Hid Hno. unfold long_tail, filter_col. rewrite Hid.
  cbn [attempt]. unfold height. cbn [rows].
  rewrite (filter_ext (fun r => is_in (keys m) (cell_at (columns df) (id_col n) r))
             (fun r => is_key m (cell_at (columns df) (id_col n) r)))
    by (intros; apply is_in_keys).
  rewrite filter_length_0. fold (no_match n m df). rewrite Hno. reflexivity.
Qed.

(** C1, as the code has it: when the native table of an identifier-keyed
    adapter exists but none of its rows carries a mapped identifier, the
    adapter prints the no-match warning and returns normally; it has written
    nothing, so the output directory is as it was before the call. *)
Theorem no_match_returns_without_writing (a : id_adapter) self w m df :
  native a w = Some (Ok df) ->
  resolve a self = Ok m ->
  has_column (columns df) (id_col (names a)) = true ->
  no_match (names a) m df = true ->
  run_id_adapter a self w
    = Done (print (NoMatching (what (names a))) (started a m w))
  /\ output (final (run_id_adapter a self w)) = output w
  /\ data (final (run_id_adapter a self w)) = data w.
Proof.
  intros Hnat Hres Hid Hno.
  assert (run_id_adapter a self w
          = Done (print (NoMatching (what (names a))) (started a m w))) as E.
  { rewrite run_id_adapter_unfold, Hnat. cbn zeta. rewrite Hres. cbn [attempt].
    apply long_tail_no_match; assumption. }
  rewrite E. repeat split; reflexivity.
Qed.

Lemma no_match_returns_without_writing_witness :
  native SicVitals unmapped_world = Some (Ok unmapped_table)
  /\ resolve SicVitals sample_sic_etl = Ok sample_lookup
  /\ run_id_adapter SicVitals sample_sic_etl unmapped_world
     = Done (print (NoMatching "DataIDs")
               (started SicVitals sample_lookup unmapped_world))
  /\ output (final (run_id_adapter SicVitals sample_sic_etl unmapped_world))
     = output unmapped_world.
Proof.
  assert (native SicVitals unmapped_world = Some (Ok unmapped_table)) as H1
    by (vm_compute; reflexivity).
  assert (resolve SicVitals sample_sic_etl = Ok sample_lookup) as H2
    by (vm_compute; reflexivity).
  split; [exact H1|]. split; [exact H2|].
  destruct (no_match_returns_without_writing SicVitals sample_sic_etl
              unmapped_world sample_lookup unmapped_table H1 H2
              ltac:(vm_compute; reflexivity) ltac:(vm_compute; reflexivity))
    as (E & Ho & _).
  split; [exact E|exact Ho].
Defined.

(** C1 as stated fails: the native file exists and no row matches, yet no
    [vitals.parquet] is in the output directory after the call. *)
Lemma no_match_leaves_no_file :
  exists_ unmapped_world "data_float_h.csv" = true
  /\ resolve SicVitals sample_sic_etl = Ok sample_lookup
  /\ no_match sic_vitals_names sample_lookup unmapped_table = true
  /\ output (final (_etl_sic_vitals sample_sic_etl unmapped_world)) !! "vitals.parquet"
     = None.
Proof. vm_compute. repeat split; reflexivity. Qed.

Lemma is_key_Int (m : gmap Z cell) k c : m !! k = Some c -> is_key m (Int k) = true.
Proof. intros H. simpl. apply bool_decide_eq_true. eauto. Qed.

(** A string that is not an integer numeral among the new values makes
    the replacement raise. *)
Lemma replace_int_raises m k s :
  m !! k = Some (Str s) -> int_literal s = None -> replace_int m = Raise PolarsError.
Proof.
  intros Hk Hs. unfold replace_int.
  destruct (forallb _ (map_to_list m)) eqn:E; [|reflexivity].
  rewrite forallb_forall in E.
  assert (In (k, Str s) (map_to_list m)) as Hin
    by (apply list_elem_of_In, elem_of_map_to_list, Hk).
  specialize (E _ Hin). cbn [snd cast_int] in E. rewrite Hs in E.
  apply bool_decide_eq_true in E. destruct E as [x Hx]. discriminate.
Qed.

Lemma is_key_has_column m cols c r :
  is_key m (cell_at cols c r) = true -> has_column cols c = true.
Proof.
  unfold cell_at, has_column. destruct (index_of c cols); [reflexivity|discriminate].
Qed.

Lemma no_match_false n m df r :
  In r (rows df) -> is_key m (cell_at (columns df) (id_col n) r) = true ->
  no_match n m df = false.
Proof.
  intros Hin Hk. destruct (no_match n m df) eqn:E; [|reflexivity].
  unfold no_match in E. rewrite forallb_forall in E.
  specialize (E r Hin). rewrite Hk in E. discriminate.
Qed.

(** The tail raises at the replacement, before anything is written, when
    a row matches and the lookup holds a category name. *)
Lemma long_tail_raises n m df w r k s :
  In r (rows df) -> is_key m (cell_at (columns df) (id_col n) r) = true ->
  m !! k = Some (Str s) -> int_literal s = None ->
  long_tail n m df w = Failed PolarsError w.
Proof.
  intros Hin Hkey Hk Hs. unfold long_tail, filter_col.
  rewrite (is_key_has_column _ _ _ _ Hkey). cbn [attempt]. unfold height. cbn [rows].
  rewrite (filter_ext (fun r => is_in (keys m) (cell_at (columns df) (id_col n) r))
             (fun r => is_key m (cell_at (columns df) (id_col n) r)))
    by (intros; apply is_in_keys).
  rewrite filter_length_0. fold (no_match n m df).
  rewrite (no_match_false _ _ _ _ Hin Hkey), (replace_int_raises _ _ _ Hk Hs).
  reflexivity.
Qed.

Lemma id_adapter_raises (a : id_adapter) self w m df r k s :
  native a w = Some (Ok df) ->
  resolve a self = Ok m ->
  In r (rows df) ->
  is_key m (cell_at (columns df) (id_col (names a)) r) = true ->
  m !! k = Some (Str s) -> int_literal s = None ->
  run_id_adapter a self w = Failed PolarsError (started a m w).
Proof.
  intros Hnat Hres Hin Hkey Hk Hs.
  rewrite run_id_adapter_unfold, Hnat. cbn zeta. rewrite Hres. cbn [attempt].
  apply (long_tail_raises _ _ _ _ r k s); assumption.
Qed.

(** C5, at the code: the adapter does not get as far as writing.  Once a
    native row carries a mapped identifier, the category column is computed
    by [pl.col(id).replace(id_map)]; the identifier column is an integer
    column and keeps its data type, so the category of the row, a name, is
    cast to an integer, and the call raises.  The adapter stops there, after
    the line that announces the lookup, and the output directory is as it
    was: the rows that the claim places in the output are not written. *)
Theorem mapped_row_makes_replace_raise (a : id_adapter) self w m df r k s :
  native a w = Some (Ok df) ->
  resolve a self = Ok m ->
  In r (rows df) ->
  cell_at (columns df) (id_col (names a)) r = Int k ->
  m !! k = Some (Str s) ->
  int_literal s = None ->
  run_id_adapter a self w = Failed PolarsError (started a m w)
  /\ output (final (run_id_adapter a self w)) = output w.
Proof.
  intros Hnat Hres Hin Hid Hk Hs.
  assert (is_key m (cell_at (columns df) (id_col (names a)) r) = true) as Hkey
    by (rewrite Hid; apply (is_key_Int _ _ _ Hk)).
  rewrite (id_adapter_raises a self w m df r k s) by assumption.
  split; reflexivity.
Qed.

Lemma mapped_row_makes_replace_raise_witness :
  native SicVitals sic_world = Some (Ok sic_table)
  /\ resolve SicVitals sample_sic_etl = Ok sample_lookup
  /\ is_key sample_lookup (Int 10) = true
  /\ is_not_null (Float (369 # 10)) = true
  /\ _etl_sic_vitals sample_sic_etl sic_world
     = Failed PolarsError (started SicVitals sample_lookup sic_world)
  /\ output (final (_etl_sic_vitals sample_sic_etl sic_world)) !! "vitals.parquet"
     = None.
Proof.
  assert (native SicVitals sic_world = Some (Ok sic_table)) as H1
    by (vm_compute; reflexivity).
  assert (resolve SicVitals sample_sic_etl = Ok sample_lookup) as H2
    by (vm_compute; reflexivity).
  split; [exact H1|]. split; [exact H2|].
  split; [vm_compute; reflexivity|]. split; [reflexivity|].
  destruct (mapped_row_makes_replace_raise SicVitals sample_sic_etl sic_world
              sample_lookup sic_table [Int 7; Int 10; Int 10; Float (369 # 10)]
              10%Z "temp_c" H1 H2) as [E Ho].
  - left. reflexivity.
  - reflexivity.
  - reflexivity.
  - reflexivity.
  - split; [exact E|]. cbn [run_id_adapter] in Ho. rewrite Ho. reflexivity.
Defined.

(** ** The resolver *)

Lemma for_each_app {A S} (body : S -> A -> result S) xs ys s :
  for_each (xs ++ ys) body s = (s' ← for_each xs body s; for_each ys body s').
Proof.
  revert s. induction xs as [|x xs IH]; intros s; simpl; [reflexivity|].
  destruct (body s x) as [s1|e]; simpl; [apply IH|reflexivity].
Qed.

Lemma add_id_lookup row cat_col s sid s' :
  add_id row cat_col s sid = Ok s' ->
  forall k, s' !! k = if decide (key_of sid = Some k) then row !! cat_col else s !! k.
Proof.
  unfold add_id, key_of, getitem. intros H k.
  destruct (Py.isdigit (Py.strip sid)).
  - destruct (row !! cat_col) as [c|]; simpl in H; [|discriminate].
    destruct (Py.int (Py.strip sid)) as [k0|]; [|discriminate].
    inversion H; subst. destruct (decide (Some k0 = Some k)) as [E|E].
    + inversion E; subst. apply lookup_insert_eq.
    + apply lookup_insert_ne. congruence.
  - inversion H; subst. destruct (decide (None = Some k)); [discriminate|reflexivity].
Qed.

Lemma elements_lookup row cat_col sids s d :
  for_each sids (add_id row cat_col) s = Ok d ->
  forall k, d !! k = if decide (k ∈ omap key_of sids) then row !! cat_col else s !! k.
Proof.
  revert s. induction sids as [|sid sids IH]; intros s H k; simpl in H.
  - inversion H; subst. simpl. destruct (decide (k ∈ [])) as [Hin|_]; [|reflexivity].
    inversion Hin.
  - destruct (add_id row cat_col s sid) as [s1|e] eqn:E1; simpl in H; [|discriminate].
    rewrite (IH _ H k). rewrite (add_id_lookup _ _ _ _ _ E1 k). simpl.
    destruct (key_of sid) as [k0|].
    + destruct (decide (k ∈ omap key_of sids)) as [Hin|Hnin].
      * rewrite decide_True by (right; exact Hin). reflexivity.
      * destruct (decide (Some k0 = Some k)) as [E|E].
        -- inversion E; subst. rewrite decide_True by left. reflexivity.
        -- rewrite decide_False; [reflexivity|].
           intros Hin. apply elem_of_cons in Hin as [->|Hin]; [congruence|contradiction].
    + destruct (decide (None = Some k)); [discriminate|]. reflexivity.
Qed.

Lemma add_row_lookup ids_col cat_col s row d :
  add_row ids_col cat_col s row = Ok d ->
  forall k, d !! k = if decide (k ∈ claimed_keys ids_col row)
                     then row !! cat_col else s !! k.
Proof.
  unfold add_row, claimed_keys. intros H k.
  destruct (ids_text (get_or_empty row ids_col)) as [text|].
  - apply (elements_lookup _ _ _ _ _ H).
  - inversion H; subst. destruct (decide (k ∈ [])) as [Hin|_]; [inversion Hin|reflexivity].
Qed.

Lemma rows_lookup_unclaimed ids_col cat_col es s d k :
  for_each es (add_row ids_col cat_col) s = Ok d ->
  (forall e, In e es -> k ∉ claimed_keys ids_col e) ->
  d !! k = s !! k.
Proof.
  revert s. induction es as [|e es IH]; intros s H Hun; simpl in H.
  - inversion H; subst. reflexivity.
  - destruct (add_row ids_col cat_col s e) as [s1|x] eqn:E1; simpl in H; [|discriminate].
    rewrite (IH _ H) by (intros; apply Hun; right; assumption).
    rewrite (add_row_lookup _ _ _ _ _ E1 k).
    rewrite decide_False by (apply Hun; left; reflexivity). reflexivity.
Qed.

(** The loops build on top of the dictionary they start from. *)
Lemma for_each_union {A} (body : gmap Z cell -> A -> result (gmap Z cell)) :
  (forall s x, body s x = (d ← body ∅ x; Ok (d ∪ s))) ->
  forall xs s, for_each xs body s = (d ← for_each xs body ∅; Ok (d ∪ s)).
Proof.
  intros Hbody. induction xs as [|x xs IH]; intros s; simpl.
  - rewrite (left_id_L ∅ (∪)). reflexivity.
  - rewrite (Hbody s x). destruct (body ∅ x) as [d|e]; simpl; [|reflexivity].
    rewrite (IH (d ∪ s)), (IH d).
    destruct (for_each xs body ∅) as [d'|e]; simpl; [|reflexivity].
    rewrite (assoc_L (∪)). reflexivity.
Qed.

Lemma add_id_union row cat_col s sid :
  add_id row cat_col s sid = (d ← add_id row cat_col ∅ sid; Ok (d ∪ s)).
Proof.
  unfold add_id, getitem.
  destruct (Py.isdigit (Py.strip sid)); simpl.
  - destruct (row !! cat_col) as [c|]; simpl; [|reflexivity].
    destruct (Py.int (Py.strip sid)) as [k|]; simpl; [|reflexivity].
    rewrite insert_union_singleton_l, insert_empty. reflexivity.
  - rewrite (left_id_L ∅ (∪)). reflexivity.
Qed.

Lemma add_row_union ids_col cat_col s row :
  add_row ids_col cat_col s row = (d ← add_row ids_col cat_col ∅ row; Ok (d ∪ s)).
Proof.
  unfold add_row. destruct (ids_text (get_or_empty row ids_col)) as [text|].
  - apply for_each_union. intros. apply add_id_union.
  - simpl. rewrite (left_id_L ∅ (∪)). reflexivity.
Qed.

Lemma build_id_map_union ids_col cat_col table s :
  build_id_map ids_col cat_col table s
  = (d ← build_id_map ids_col cat_col table ∅; Ok (d ∪ s)).
Proof. unfold build_id_map. apply for_each_union. intros. apply add_row_union. Qed.

Lemma build_merged_id_map_union ids_col self m :
  build_merged_id_map ids_col self = Ok m ->
  exists mv ml,
    build_id_map ids_col "vital_category" (vitals_map self) ∅ = Ok mv
    /\ build_id_map ids_col "lab_category" (labs_map self) ∅ = Ok ml
    /\ m = ml ∪ mv.
Proof.
  unfold build_merged_id_map. intros H.
  destruct (build_id_map ids_col "vital_category" (vitals_map self) ∅) as [mv|e];
    simpl in H; [|discriminate].
  rewrite build_id_map_union in H.
  destruct (build_id_map ids_col "lab_category" (labs_map self) ∅) as [ml|e];
    simpl in H; [|discriminate].
  inversion H; subst. eauto.
Qed.

(** An identifier claimed by an entry and by no later entry resolves to
    that entry's category. *)
Lemma later_entry_overrides ids_col cat_col table init m es1 e es2 k c :
  build_id_map ids_col cat_col table init = Ok m ->
  iter_rows table = es1 ++ e :: es2 ->
  k ∈ claimed_keys ids_col e ->
  e !! cat_col = Some c ->
  (forall e', In e' es2 -> k ∉ claimed_keys ids_col e') ->
  m !! k = Some c.
Proof.
  intros Hb Hrows Hk Hc Hlater.
  unfold build_id_map in Hb. rewrite Hrows, for_each_app in Hb.
  destruct (for_each es1 (add_row ids_col cat_col) init) as [s1|x];
    simpl in Hb; [|discriminate].
  destruct (add_row ids_col cat_col s1 e) as [s2|x] eqn:He;
    simpl in Hb; [|discriminate].
  rewrite (rows_lookup_unclaimed _ _ _ _ _ _ Hb Hlater).
  rewrite (add_row_lookup _ _ _ _ _ He k).
  rewrite decide_True by assumption. exact Hc.
Qed.

(** The merged dictionary is the labs dictionary over the vitals one. *)
Lemma merged_lookup_prefers_labs a self m :
  a = HiridVitals \/ a = AumcVitals ->
  resolve a self = Ok m ->
  exists mv ml,
    build_id_map (ids_column a) "vital_category" (vitals_map self) ∅ = Ok mv
    /\ build_id_map (ids_column a) "lab_category" (labs_map self) ∅ = Ok ml
    /\ (forall k c, ml !! k = Some c -> m !! k = Some c)
    /\ (forall k, ml !! k = None -> m !! k = mv !! k).
Proof.
  intros Ha Hres.
  assert (build_merged_id_map (ids_column a) self = Ok m) as Hm
    by (destruct Ha; subst a; exact Hres).
  destruct (build_merged_id_map_union _ _ _ Hm) as (mv & ml & Hv & Hl & ->).
  exists mv, ml. repeat split; try assumption.
  - intros k c Hk. apply lookup_union_Some_l. exact Hk.
  - intros k Hk. apply lookup_union_r. exact Hk.
Qed.

(** C6: last write wins.  Within one pass over a mapping table, an
    identifier claimed by an entry and by no later entry resolves to that
    entry's category, whatever earlier entries or the starting dictionary
    said; and the merged dictionary of the HiRID and AUMC adapters is the
    labs dictionary laid over the vitals dictionary, so an identifier that
    both domains claim resolves to the labs category. *)
Theorem last_write_wins :
  (forall ids_col cat_col table init m es1 e es2 k c,
      build_id_map ids_col cat_col table init = Ok m ->
      iter_rows table = es1 ++ e :: es2 ->
      k ∈ claimed_keys ids_col e ->
      e !! cat_col = Some c ->
      (forall e', In e' es2 -> k ∉ claimed_keys ids_col e') ->
      m !! k = Some c)
  /\ (forall a self m,
        a = HiridVitals \/ a = AumcVitals ->
        resolve a self = Ok m ->
        exists mv ml,
          build_id_map (ids_column a) "vital_category" (vitals_map self) ∅ = Ok mv
          /\ build_id_map (ids_column a) "lab_category" (labs_map self) ∅ = Ok ml
          /\ (forall k c, ml !! k = Some c -> m !! k = Some c)
          /\ (forall k, ml !! k = None -> m !! k = mv !! k)).
Proof.
  split.
  - intros. eapply later_entry_overrides; eassumption.
  - intros. apply merged_lookup_prefers_labs; assumption.
Qed.

Lemma last_write_wins_witness :
  build_id_map "sic_ids" "vital_category" overlapping_map ∅
  = Ok (<[20%Z := Str "heart_rate"]> (<[10%Z := Str "temp_c"]> ∅))
  /\ (<[20%Z := Str "heart_rate"]> (<[10%Z := Str "temp_c"]> ∅) : gmap Z cell) !! 20%Z
     = Some (Str "heart_rate")
  /\ exists m, resolve HiridVitals sample_hirid_etl = Ok m
               /\ m !! 7%Z = Some (Str "lactate")
               /\ m !! 8%Z = Some (Str "heart_rate").
Proof.
  assert (build_id_map "sic_ids" "vital_category" overlapping_map ∅
          = Ok (<[20%Z := Str "heart_rate"]> (<[10%Z := Str "temp_c"]> ∅))) as Hb
    by (vm_compute; reflexivity).
  split; [exact Hb|]. split.
  - apply (proj1 last_write_wins "sic_ids" "vital_category" overlapping_map ∅ _
             [named_row (columns overlapping_map) [Str "temp_c"; Str "10; 20"]]
             (named_row (columns overlapping_map) [Str "heart_rate"; Str "20"])
             [] 20%Z (Str "heart_rate") Hb).
    + reflexivity.
    + vm_compute. left.
    + vm_compute. reflexivity.
    + intros e' [].
  - assert (exists m, resolve HiridVitals sample_hirid_etl = Ok m) as [m Hm]
      by (vm_compute; eauto).
    exists m. split; [exact Hm|].
    destruct (proj2 last_write_wins HiridVitals sample_hirid_etl m
                (or_introl eq_refl) Hm) as (mv & ml & Hv & Hl & Hlabs & Hvit).
    assert (ml = <[7%Z := Str "lactate"]> ∅) as ->
      by (vm_compute in Hl; inversion Hl; reflexivity).
    assert (mv = <[8%Z := Str "heart_rate"]> (<[7%Z := Str "heart_rate"]> ∅)) as ->
      by (vm_compute in Hv; inversion Hv; vm_compute; reflexivity).
    split.
    + apply Hlabs. vm_compute. reflexivity.
    + rewrite Hvit by (vm_compute; reflexivity). vm_compute. reflexivity.
Defined.

(** An element that is not made of digit characters is passed over: the
    dictionary is unchanged and nothing is raised. *)
Lemma non_digit_element_ignored row cat_col m sid :
  Py.isdigit (Py.strip sid) = false -> add_id row cat_col m sid = Ok m.
Proof. intros H. unfold add_id. rewrite H. reflexivity. Qed.

Lemma int_acc_decimal s acc :
  Py.all_chars Py.isdecimal_char s = true -> is_Some (Py.int_acc acc s).
Proof.
  revert acc. induction s as [|c s IH]; intros acc H; simpl in *; [eauto|].
  apply andb_prop in H as [Hc Hs]. rewrite Hc. apply IH, Hs.
Qed.

(** [int] accepts every string of decimal digits. *)
Lemma int_of_decimal s : Py.isdecimal s = true -> is_Some (Py.int s).
Proof.
  unfold Py.isdecimal, Py.int. intros H. apply andb_prop in H as [Hn Hs].
  rewrite Hn. apply int_acc_decimal, Hs.
Qed.

Lemma all_decimal_all_digit s :
  Py.all_chars Py.isdecimal_char s = true -> Py.all_chars Py.isdigit_char s = true.
Proof.
  induction s as [|ch s IH]; [reflexivity|].
  cbn [Py.all_chars]. intros H. apply andb_prop in H as [Hch Hs].
  apply andb_true_intro. split; [|apply IH, Hs].
  unfold Py.isdigit_char. rewrite Hch. reflexivity.
Qed.

Lemma isdecimal_isdigit s : Py.isdecimal s = true -> Py.isdigit s = true.
Proof.
  unfold Py.isdecimal, Py.isdigit. intros H. apply andb_prop in H as [Hn Hall].
  apply andb_true_intro. split; [exact Hn|apply all_decimal_all_digit, Hall].
Qed.

(** An element of decimal digits is entered under its value. *)
Lemma decimal_element_inserted row cat_col m sid c :
  Py.isdecimal (Py.strip sid) = true -> row !! cat_col = Some c ->
  exists k, Py.int (Py.strip sid) = Some k
            /\ add_id row cat_col m sid = Ok (<[k := c]> m).
Proof.
  intros Hd Hc. destruct (int_of_decimal _ Hd) as [k Hk]. exists k.
  split; [exact Hk|]. unfold add_id, getitem.
  rewrite (isdecimal_isdigit _ Hd).
  rewrite Hc. simpl. rewrite Hk. reflexivity.
Qed.

(** C7.  The list ["10; 20;30"] resolves to exactly the keys 10, 20 and 30,
    each mapped to the entry's category.  The element U+00B2, however,
    passes the [isdigit] guard although [int] rejects it: building the
    lookup raises [ValueError] and the adapter stops with it instead of
    leaving the element out. *)
Theorem isdigit_guard_lets_int_raise :
  build_id_map "sic_ids" "vital_category" sample_vitals_map ∅ = Ok sample_lookup
  /\ dom sample_lookup = ({[ 10%Z; 20%Z; 30%Z ]} : gset Z)
  /\ Py.isdigit superscript_two = true
  /\ Py.int superscript_two = None
  /\ build_id_map "sic_ids" "vital_category" superscript_map ∅ = Raise ValueError
  /\ _etl_sic_vitals superscript_etl sic_world
     = Failed ValueError (print (Processing "vitals" "data_float_h.csv") sic_world).
Proof.
  split; [vm_compute; reflexivity|].
  repeat split; vm_compute; reflexivity.
Qed.

(** C3.  The loop of [_etl_eicu_labs] does not split the identifier field:
    the list ["bicarbonate; HCO3"] becomes the single key
    ["bicarbonate; hco3"], neither label is a key, and a [HCO3] result is
    written without the category [bicarbonate]. *)
Theorem eicu_labels_are_not_split :
  build_lab_map two_label_map = Ok {[ "bicarbonate; hco3" := Str "bicarbonate" ]}
  /\ ({[ "bicarbonate; hco3" := Str "bicarbonate" ]} : gmap string cell) !! "hco3" = None
  /\ ({[ "bicarbonate; hco3" := Str "bicarbonate" ]} : gmap string cell) !! "bicarbonate"
     = None
  /\ output (final (_etl_eicu_labs two_label_etl hco3_world)) !! "labs.parquet"
     = Some (mkDF [ "hospitalization_id"; "lab_collect_dttm_offset_min";
                    "lab_category"; "lab_value" ]
               [ [Int 1; Int 3; Str "hco3"; Float 24] ]).
Proof. repeat split; vm_compute; reflexivity. Qed.

(** C4, as the code has it: loading fails, with [FileNotFoundError],
    exactly when the directory of the domain has no candidate file; with one
    candidate or more it reads the first one listed, and only that one. *)
Theorem load_mappings_reads_first_candidate mappings_dir mapping_type :
  (load_mappings mappings_dir mapping_type = Raise FileNotFoundError
   <-> glob_csv mappings_dir mapping_type = [])
  /\ (forall f rest,
        glob_csv mappings_dir mapping_type = f :: rest ->
        load_mappings mappings_dir mapping_type = Ok (snd f)).
Proof.
  unfold load_mappings. split.
  - destruct (glob_csv mappings_dir mapping_type); split; congruence.
  - intros f rest ->. reflexivity.
Qed.

Lemma load_mappings_reads_first_candidate_witness :
  glob_csv two_candidates "vitals"
  = [ ("a.csv", sample_vitals_map); ("b.csv", overlapping_map) ]
  /\ load_mappings two_candidates "vitals" = Ok sample_vitals_map
  /\ glob_csv two_candidates "labs" = []
  /\ load_mappings two_candidates "labs" = Raise FileNotFoundError.
Proof.
  assert (glob_csv two_candidates "vitals"
          = [ ("a.csv", sample_vitals_map); ("b.csv", overlapping_map) ]) as H1
    by (vm_compute; reflexivity).
  assert (glob_csv two_candidates "labs" = []) as H2 by (vm_compute; reflexivity).
  split; [exact H1|]. split.
  - exact (proj2 (load_mappings_reads_first_candidate two_candidates "vitals") _ _ H1).
  - split; [exact H2|].
    exact (proj2 (proj1 (load_mappings_reads_first_candidate two_candidates "labs")) H2).
Defined.

(** C4 as stated fails: with two candidate files the load succeeds. *)
Lemma load_mappings_accepts_two_candidates :
  length (glob_csv two_candidates "vitals") = 2%nat
  /\ load_mappings two_candidates "vitals" = Ok sample_vitals_map
  /\ ~ (exists e, load_mappings two_candidates "vitals" = Raise e).
Proof.
  split; [vm_compute; reflexivity|]. split; [vm_compute; reflexivity|].
  intros [e He]. vm_compute in He. discriminate.
Qed.

(** The resolver returns a dictionary whenever every entry is tolerated:
    it can only raise on an element such as U+00B2, or for want of the
    category column. *)
Lemma build_id_map_total ids_col cat_col table init :
  forallb (tolerated_row ids_col cat_col) (iter_rows table) = true ->
  exists m, build_id_map ids_col cat_col table init = Ok m.
Proof.
  unfold build_id_map. revert init.
  induction (iter_rows table) as [|row es IH]; intros init H; simpl in *; [eauto|].
  apply andb_prop in H as [Hrow Hes].
  assert (exists s, add_row ids_col cat_col init row = Ok s) as [s Hs].
  { unfold add_row, tolerated_row in *.
    destruct (ids_text (get_or_empty row ids_col)) as [text|]; [|eauto].
    revert init. induction (Py.split ";" text) as [|sid sids IHs]; intros init;
      simpl in *; [eauto|].
    apply andb_prop in Hrow as [Hsid Hsids].
    destruct (Py.isdigit (Py.strip sid)) eqn:Ed; simpl in Hsid.
    - apply andb_prop in Hsid as [Hdec Hcat].
      apply bool_decide_eq_true in Hcat as [c Hc].
      destruct (decimal_element_inserted row cat_col init sid c Hdec Hc) as (k & _ & ->).
      simpl. apply IHs, Hsids.
    - rewrite (non_digit_element_ignored _ _ _ _ Ed). simpl. apply IHs, Hsids. }
  rewrite Hs. simpl. apply IH, Hes.
Qed.

(** ** Skipping and framing *)

Lemma etl_steps ds self w :
  etl ds self w
  = then_ (run_adapter (vitals_step ds) self (opened ds w))
      (run_adapter (labs_step ds) self).
Proof. destruct ds; reflexivity. Qed.





Ltac step_attempts :=
  repeat match goal with
         | |- context [attempt _ ?r _] => destruct r; cbn [attempt final]
         | |- context [if ?b then _ else _] => destruct b; cbn [final]
         end.

(** The long-format tail touches no output file but its own. *)
Lemma long_tail_frame n m df w f :
  f <> out_file n ->
  output (final (long_tail n m df w)) !! f = output w !! f.
Proof.
  intros Hf. unfold long_tail. step_attempts; try reflexivity.
  cbn. apply lookup_insert_ne. congruence.
Qed.

Lemma run_id_adapter_frame a self w f :
  f <> out_file (names a) ->
  output (final (run_id_adapter a self w)) !! f = output w !! f.
Proof.
  intros Hf. rewrite run_id_adapter_unfold.
  destruct (native a w) as [rd|]; [|reflexivity]. cbn zeta.
  destruct (resolve a self) as [m|e]; cbn [attempt final]; [|reflexivity].
  destruct rd as [df|e]; cbn [attempt final]; [|reflexivity].
  rewrite long_tail_frame by assumption. reflexivity.
Qed.

(** ** HiRID and AUMC: the lab observations *)

Lemma final_then_output o (k : World -> outcome) :
  (forall w1, output (final (k w1)) = output w1) ->
  output (final (then_ o k)) = output (final o).
Proof. intros Hk. destruct o as [w1|e w1]; cbn [then_ final]; [apply Hk|reflexivity]. Qed.

(** C10, at the code: for HiRID and AUMC the driver leaves [labs.parquet]
    as it found it, however the run ends, and the labs step writes nothing.
    The lab observations, however, do not reach [vitals.parquet]: as soon
    as an observation carries an identifier that the labs mapping table
    claims, the replacement of the identifiers by the categories raises (the
    lab category, a name, is cast to the integer type of the identifier
    column), the driver stops before the labs step and the output directory
    is as it was. *)
Theorem lab_rows_make_the_vitals_adapter_raise (ds : dataset) self w :
  ds = Hirid \/ ds = Aumc ->
  output (final (etl ds self w)) !! "labs.parquet" = output w !! "labs.parquet"
  /\ (forall w1, output (final (run_adapter (labs_step ds) self w1)) = output w1)
  /\ (forall a m ml df r k s,
        vitals_step ds = Keyed a ->
        native a (opened ds w) = Some (Ok df) ->
        resolve a self = Ok m ->
        build_id_map (ids_column a) "lab_category" (labs_map self) ∅ = Ok ml ->
        In r (rows df) ->
        cell_at (columns df) (id_col (names a)) r = Int k ->
        ml !! k = Some (Str s) ->
        int_literal s = None ->
        etl ds self w = Failed PolarsError (started a m (opened ds w))
        /\ output (final (etl ds self w)) = output w).
Proof.
  intros Hds.
  assert (exists a, vitals_step ds = Keyed a
                    /\ (a = HiridVitals \/ a = AumcVitals)
                    /\ output (opened ds w) = output w
                    /\ forall w1, run_adapter (labs_step ds) self w1
                                  = Done (print (skip_line (labs_step ds)) w1))
    as (a & Ha & Hcase & Hopen & Hlabs)
    by (destruct Hds; subst ds; eexists; repeat split; auto).
  assert (out_file (names a) = "vitals.parquet") as Hfile
    by (destruct Hcase; subst a; reflexivity).
  split; [|split].
  - rewrite etl_steps, Ha. cbn [run_adapter].
    rewrite final_then_output by (intros; rewrite Hlabs; reflexivity).
    rewrite run_id_adapter_frame by (rewrite Hfile; discriminate).
    rewrite Hopen. reflexivity.
  - intros w1. rewrite Hlabs. reflexivity.
  - intros a' m ml df r k s Ha' Hnat Hres Hl Hin Hid Hk Hs.
    rewrite Ha in Ha'. inversion Ha'; subst a'. clear Ha'.
    assert (m !! k = Some (Str s)) as Hm.
    { destruct (merged_lookup_prefers_labs a self m Hcase Hres)
        as (mv & ml' & _ & Hl' & Hlabs' & _).
      rewrite Hl in Hl'. inversion Hl'; subst ml'. apply Hlabs', Hk. }
    assert (is_key m (cell_at (columns df) (id_col (names a)) r) = true) as Hkey
      by (rewrite Hid; apply (is_key_Int _ _ _ Hm)).
    assert (etl ds self w = Failed PolarsError (started a m (opened ds w))) as E.
    { rewrite etl_steps, Ha. cbn [run_adapter].
      rewrite (id_adapter_raises a self _ m df r k s) by assumption.
      reflexivity. }
    rewrite E. split; [reflexivity|].
    unfold started, print. cbn [final output]. exact Hopen.
Qed.

Lemma lab_rows_make_the_vitals_adapter_raise_witness :
  native HiridVitals (opened Hirid hirid_world) = Some (Ok observations_table)
  /\ build_id_map "hirid_ids" "lab_category" hirid_labs_map ∅
     = Ok (<[7%Z := Str "lactate"]> ∅)
  /\ (exists m,
        resolve HiridVitals sample_hirid_etl = Ok m
        /\ etl Hirid sample_hirid_etl hirid_world
           = Failed PolarsError (started HiridVitals m (opened Hirid hirid_world)))
  /\ output (final (etl Hirid sample_hirid_etl hirid_world)) = ∅.
Proof.
  assert (native HiridVitals (opened Hirid hirid_world) = Some (Ok observations_table))
    as H1 by (vm_compute; reflexivity).
  assert (build_id_map "hirid_ids" "lab_category" hirid_labs_map ∅
          = Ok (<[7%Z := Str "lactate"]> ∅)) as H2 by (vm_compute; reflexivity).
  assert (exists m, resolve HiridVitals sample_hirid_etl = Ok m) as [m Hm]
    by (vm_compute; eauto).
  split; [exact H1|]. split; [exact H2|].
  destruct (lab_rows_make_the_vitals_adapter_raise Hirid sample_hirid_etl hirid_world
              (or_introl eq_refl)) as (_ & _ & Hrows).
  destruct (Hrows HiridVitals m (<[7%Z := Str "lactate"]> ∅) observations_table
              [Int 3; Str "2100-01-01 10:05"; Int 7; Float (21 # 10)]
              7%Z "lactate" eq_refl H1 Hm H2) as [E Ho].
  - right. left. reflexivity.
  - reflexivity.
  - reflexivity.
  - reflexivity.
  - split; [exists m; split; [exact Hm|exact E]|]. rewrite Ho. reflexivity.
Defined.

(** ** The eICU adapters *)

Ltac eval_closed t :=
  let v := eval vm_compute in t in
  replace t with v by (vm_compute; reflexivity).

Lemma eicu_labs_spec self w df lab_map :
  data w !! "lab.csv" = Some (File df) ->
  build_lab_map (labs_map self) = Ok lab_map ->
  forallb (has_column (columns df))
    ["patientunitstayid"; "labresultoffset"; "labname"; "labresult"] = true ->
  _etl_eicu_labs self w =
    let out := mkDF lab_columns
                 (map (lab_record lab_map (columns df))
                    (List.filter (fun r => is_not_null (cell_at (columns df) "labresult" r))
                       (rows df))) in
    Done (print (Wrote (height out) "labs.parquet")
            (write_parquet "labs.parquet" out (print (Processing "labs" "lab.csv") w))).
Proof.
  intros Hfile Hmap Hcols.
  unfold _etl_eicu_labs, exists_, scan_csv, scan_file. cbn [data print]. rewrite Hfile.
  cbn [negb]. rewrite Hmap. cbn [attempt]. unfold select at 1. rewrite Hcols.
  cbn [attempt].
  unfold with_columns. cbn [columns rows].
  change (has_column _ "labname") with true. cbv iota.
  change (index_of "lab_category" _) with (@None nat). cbv iota.
  cbn [attempt]. unfold rename. cbn [columns rows].
  match goal with |- context [forallb ?f (map fst ?l)] =>
    eval_closed (forallb f (map fst l)) end.
  match goal with |- context [bool_decide (NoDup ?l)] =>
    eval_closed (bool_decide (NoDup l)) end.
  cbn [attempt]. unfold select. cbn [columns rows].
  match goal with |- context [map (rename_name ?m) ?l] =>
    eval_closed (map (rename_name m) l) end.
  match goal with |- context [forallb ?f ?l] => eval_closed (forallb f l) end.
  cbn [attempt]. unfold filter_col. cbn [columns rows].
  change (has_column _ "lab_value") with true. cbv iota. cbn [attempt].
  rewrite !map_map, filter_map_comm. cbn zeta. reflexivity.
Qed.

Lemma length_long_pairs value_cols rs :
  length (long_pairs value_cols rs) = (length rs * length value_cols)%nat.
Proof.
  unfold long_pairs. induction value_cols as [|c cs IH]; simpl; [lia|].
  rewrite length_app, length_map, IH. lia.
Qed.

Lemma flat_map_pairs {B} (G : string -> list cell -> B) value_cols rs :
  flat_map (fun c => map (G c) rs) value_cols
  = map (fun x => G (fst x) (snd x)) (long_pairs value_cols rs).
Proof.
  unfold long_pairs. induction value_cols as [|c cs IH]; simpl; [reflexivity|].
  rewrite map_app, map_map, IH. reflexivity.
Qed.

Lemma long_pairs_map (g : list cell -> list cell) value_cols rs :
  long_pairs value_cols (map g rs)
  = map (fun x => (fst x, g (snd x))) (long_pairs value_cols rs).
Proof.
  unfold long_pairs. induction value_cols as [|c cs IH]; simpl; [reflexivity|].
  rewrite map_app, !map_map, IH. reflexivity.
Qed.

Lemma In_long_pairs value_cols rs x :
  In x (long_pairs value_cols rs) -> In (fst x) value_cols /\ In (snd x) rs.
Proof.
  unfold long_pairs. rewrite in_flat_map. intros (c & Hc & Hin).
  apply in_map_iff in Hin as (r & <- & Hr). auto.
Qed.

Lemma cell_at_map (f : string -> cell) cols c :
  In c cols -> cell_at cols c (map f cols) = f c.
Proof.
  intros Hin. unfold cell_at.
  destruct (index_of c cols) as [i|] eqn:E.
  - apply index_of_Some in E as [_ Hn].
    apply nth_error_nth, map_nth_error, Hn.
  - apply index_of_None in E. contradiction.
Qed.

Lemma has_columns_self cols : forallb (has_column cols) cols = true.
Proof. apply forallb_forall. intros c Hc. apply has_column_In, Hc. Qed.

Lemma filter_all {A} (p : A -> bool) l :
  forallb p l = true -> List.filter p l = l.
Proof.
  induction l as [|a l IH]; simpl; [reflexivity|]. intros H.
  apply andb_prop in H as [-> H]. rewrite IH by assumption. reflexivity.
Qed.

Lemma forallb_filter {A} (p q : A -> bool) l :
  forallb p l = true -> forallb p (List.filter q l) = true.
Proof.
  rewrite !forallb_forall. intros H a Ha. apply filter_In in Ha as [Ha _]. auto.
Qed.

Lemma value_cols_available available c :
  In c (value_cols_of available) -> In c available.
Proof.
  unfold value_cols_of. intros H. apply filter_In in H as [_ H].
  apply bool_decide_eq_true in H. apply list_elem_of_In. exact H.
Qed.

Lemma eicu_vitals_spec self w df :
  data w !! "vitalperiodic.csv" = Some (File df) ->
  forallb (has_column (columns df)) ["patientunitstayid"; "observationoffset"] = true ->
  _etl_eicu_vitals self w =
    let w1 := print (Processing "vitals" "vitalperiodic.csv") w in
    match value_cols_of (columns df) with
    | [] => Done w1
    | value_cols =>
        let intermediate :=
          map (vital_record (columns df)) (long_pairs value_cols (rows df)) in
        let out := mkDF vital_columns
                     (List.filter (fun x => is_not_null (value_of x)) intermediate) in
        Done (print (Wrote (height out) "vitals.parquet")
                (write_parquet "vitals.parquet" out w1))
    end.
Proof.
  intros Hfile Hids.
  unfold _etl_eicu_vitals, exists_, scan_csv, scan_file. cbn [data print]. rewrite Hfile.
  cbn [negb attempt]. fold (value_cols_of (columns df)).
  set (V := value_cols_of (columns df)).
  set (ids := ["patientunitstayid"; "observationoffset"]) in *.
  assert (HV : forall c, In c V -> In c (columns df))
    by (intros; apply value_cols_available; assumption).
  assert (Hsel : forallb (has_column (columns df)) (ids ++ V) = true).
  { rewrite forallb_app, Hids. apply forallb_forall.
    intros c Hc. apply has_column_In, HV, Hc. }
  unfold select at 1. rewrite Hsel. cbn [attempt].
  assert (Hvals : List.filter (fun c => negb (bool_decide (c ∈ ids))) (ids ++ V) = V).
  { rewrite List.filter_app. change (List.filter _ ids) with (@nil string). simpl.
    apply filter_all. unfold V, value_cols_of. apply forallb_filter.
    vm_compute. reflexivity. }
  rewrite Hvals. destruct V as [|c0 V0] eqn:EV; [reflexivity|]. rewrite <- EV in *.
  unfold unpivot. cbn [columns rows]. rewrite has_columns_self. cbn [attempt].
  rewrite flat_map_pairs, long_pairs_map, map_map. cbn [fst snd].
  rewrite (map_ext_in _ (fun x => [ cell_at (columns df) "patientunitstayid" (snd x);
                                    cell_at (columns df) "observationoffset" (snd x);
                                    Str (fst x);
                                    cell_at (columns df) (fst x) (snd x) ])).
  2:{ intros x Hx. apply In_long_pairs in Hx as [Hc _]. cbn [map app].
      rewrite !cell_at_map; [reflexivity|..]; apply in_or_app; simpl; auto. }
  subst ids. unfold with_columns. cbn [columns rows app].
  change (has_column _ "eicu_col") with true. cbv iota.
  change (index_of "vital_category" _) with (@None nat). cbv iota.
  cbn [attempt]. unfold rename. cbn [columns rows].
  match goal with |- context [forallb ?f (map fst ?l)] =>
    eval_closed (forallb f (map fst l)) end.
  match goal with |- context [bool_decide (NoDup ?l)] =>
    eval_closed (bool_decide (NoDup l)) end.
  cbn [attempt]. unfold select. cbn [columns rows].
  match goal with |- context [map (rename_name ?m) ?l] =>
    eval_closed (map (rename_name m) l) end.
  match goal with |- context [forallb ?f ?l] => eval_closed (forallb f l) end.
  cbn [attempt]. unfold filter_col. cbn [columns rows].
  change (has_column _ "vital_value") with true. cbv iota. cbn [attempt].
  rewrite !map_map. reflexivity.
Qed.

(** C2, as the code has it: [_etl_eicu_labs] drops the rows without a
    value and no other row; a row whose lower-cased label is not a key of
    the lookup is written with that lower-cased label in its category
    column, not with a null. *)
Theorem unmapped_label_becomes_category self w df lab_map :
  data w !! "lab.csv" = Some (File df) ->
  build_lab_map (labs_map self) = Ok lab_map ->
  forallb (has_column (columns df))
    ["patientunitstayid"; "labresultoffset"; "labname"; "labresult"] = true ->
  exists w' out,
    _etl_eicu_labs self w = Done w'
    /\ output w' !! "labs.parquet" = Some out
    /\ columns out = lab_columns
    /\ rows out
       = map (lab_record lab_map (columns df))
           (List.filter (fun r => is_not_null (cell_at (columns df) "labresult" r))
              (rows df))
    /\ (forall r l,
          In r (rows df) ->
          cell_at (columns df) "labname" r = Str l ->
          lab_map !! Py.lower l = None ->
          is_not_null (cell_at (columns df) "labresult" r) = true ->
          In [ cell_at (columns df) "patientunitstayid" r;
               cell_at (columns df) "labresultoffset" r;
               Str (Py.lower l);
               cell_at (columns df) "labresult" r ] (rows out)).
Proof.
  intros Hfile Hmap Hcols.
  rewrite (eicu_labs_spec self w df lab_map Hfile Hmap Hcols). cbn zeta.
  eexists. eexists. split; [reflexivity|]. split; [apply lookup_insert_eq|].
  split; [reflexivity|]. split; [reflexivity|].
  intros r l Hin Hl Hnone Hval. cbn [rows].
  replace (Str (Py.lower l))
    with (replace (lookup_str lab_map) (to_lowercase (cell_at (columns df) "labname" r)))
    by (rewrite Hl; unfold replace; simpl; rewrite Hnone; reflexivity).
  apply (in_map (lab_record lab_map (columns df))).
  apply filter_In. auto.
Qed.

Lemma unmapped_label_becomes_category_witness :
  data lab_world !! "lab.csv" = Some (File lab_table)
  /\ build_lab_map albumin_map = Ok {[ "albumin" := Str "albumin" ]}
  /\ exists w' out,
       _etl_eicu_labs albumin_etl lab_world = Done w'
       /\ output w' !! "labs.parquet" = Some out
       /\ rows out = [ [Int 1; Int 3; Str "albumin"; Float 4];
                       [Int 1; Int 5; Str "pao2"; Float 90] ].
Proof.
  assert (data lab_world !! "lab.csv" = Some (File lab_table)) as H1
    by (vm_compute; reflexivity).
  assert (build_lab_map (labs_map albumin_etl) = Ok {[ "albumin" := Str "albumin" ]})
    as H2 by (vm_compute; reflexivity).
  split; [exact H1|]. split; [exact H2|].
  destruct (unmapped_label_becomes_category albumin_etl lab_world lab_table _ H1 H2
              ltac:(vm_compute; reflexivity)) as (w' & out & Hrun & Hout & _ & Hrows & _).
  exists w', out. split; [exact Hrun|]. split; [exact Hout|].
  rewrite Hrows. vm_compute. reflexivity.
Defined.

(** C2 as stated fails: the label [PaO2] has no entry in the lookup, and
    its row is written with the category ["pao2"], which is not null. *)
Lemma unmapped_label_category_is_not_null :
  build_lab_map albumin_map = Ok {[ "albumin" := Str "albumin" ]}
  /\ ({[ "albumin" := Str "albumin" ]} : gmap string cell) !! Py.lower "PaO2" = None
  /\ output (final (_etl_eicu_labs albumin_etl lab_world)) !! "labs.parquet"
     = Some (mkDF lab_columns [ [Int 1; Int 3; Str "albumin"; Float 4];
                                [Int 1; Int 5; Str "pao2"; Float 90] ])
  /\ cell_at lab_columns "lab_category" [Int 1; Int 5; Str "pao2"; Float 90] <> Null.
Proof.
  split; [vm_compute; reflexivity|]. split; [vm_compute; reflexivity|].
  split; [vm_compute; reflexivity|]. vm_compute. discriminate.
Qed.

Lemma unpivot_height index on variable_name value_name df df' :
  unpivot index on variable_name value_name df = Ok df' ->
  height df' = (height df * length on)%nat.
Proof.
  unfold unpivot. destruct (forallb _ _); [|discriminate].
  intros H. inversion H; subst. unfold height. cbn [rows].
  rewrite flat_map_pairs, length_map. apply length_long_pairs.
Qed.

(** C8, as the code has it: unpivoting N value columns over R rows gives
    R × N long rows; [_etl_eicu_vitals] writes those of them whose value is
    not null; and the scenario table yields three canonical rows, the two
    temperatures and the heart rate at time 0: only the null heart rate at
    time 5 is dropped. *)
Theorem unpivot_keeps_every_valued_cell :
  (forall index on variable_name value_name df df',
      unpivot index on variable_name value_name df = Ok df' ->
      height df' = (height df * length on)%nat)
  /\ (forall self w df,
        data w !! "vitalperiodic.csv" = Some (File df) ->
        forallb (has_column (columns df)) ["patientunitstayid"; "observationoffset"]
        = true ->
        let value_cols := value_cols_of (columns df) in
        let intermediate :=
          map (vital_record (columns df)) (long_pairs value_cols (rows df)) in
        length intermediate = (height df * length value_cols)%nat
        /\ (value_cols <> [] ->
            exists w',
              _etl_eicu_vitals self w = Done w'
              /\ output w' !! "vitals.parquet"
                 = Some (mkDF vital_columns
                           (List.filter (fun x => is_not_null (value_of x))
                              intermediate))))
  /\ (forall self,
        output (final (_etl_eicu_vitals self scenario_world)) !! "vitals.parquet"
        = Some (mkDF vital_columns
                  [ [Int 1; Int 0; Str "temp_c"; Float (371 # 10)];
                    [Int 1; Int 5; Str "temp_c"; Float (372 # 10)];
                    [Int 1; Int 0; Str "heart_rate"; Int 88] ])).
Proof.
  split; [|split].
  - intros. eapply unpivot_height; eassumption.
  - intros self w df Hfile Hids value_cols intermediate. split.
    + unfold intermediate. rewrite length_map. apply length_long_pairs.
    + intros Hne. rewrite (eicu_vitals_spec self w df Hfile Hids). cbn zeta.
      fold value_cols. destruct value_cols as [|c cs] eqn:E; [contradiction|].
      eexists. split; [reflexivity|]. apply lookup_insert_eq.
  - intros self.
    rewrite (eicu_vitals_spec self scenario_world scenario_table)
      by (vm_compute; reflexivity).
    vm_compute. reflexivity.
Qed.

Lemma unpivot_keeps_every_valued_cell_witness :
  data scenario_world !! "vitalperiodic.csv" = Some (File scenario_table)
  /\ value_cols_of (columns scenario_table) = ["temperature"; "heartrate"]
  /\ length (map (vital_record (columns scenario_table))
               (long_pairs ["temperature"; "heartrate"] (rows scenario_table)))
     = (2 * 2)%nat
  /\ exists w',
       _etl_eicu_vitals sample_sic_etl scenario_world = Done w'
       /\ output w' !! "vitals.parquet"
          = Some (mkDF vital_columns
                    [ [Int 1; Int 0; Str "temp_c"; Float (371 # 10)];
                      [Int 1; Int 5; Str "temp_c"; Float (372 # 10)];
                      [Int 1; Int 0; Str "heart_rate"; Int 88] ]).
Proof.
  assert (data scenario_world !! "vitalperiodic.csv" = Some (File scenario_table))
    as H1 by (vm_compute; reflexivity).
  assert (value_cols_of (columns scenario_table) = ["temperature"; "heartrate"])
    as H2 by (vm_compute; reflexivity).
  destruct (proj1 (proj2 unpivot_keeps_every_valued_cell) sample_sic_etl
              scenario_world scenario_table H1 ltac:(vm_compute; reflexivity))
    as (Hlen & Hout).
  split; [exact H1|]. split; [exact H2|]. rewrite H2 in Hlen, Hout. split.
  - exact Hlen.
  - destruct (Hout ltac:(discriminate)) as (w' & Hrun & Hfile).
    exists w'. split; [exact Hrun|]. rewrite Hfile. vm_compute. reflexivity.
Defined.

(** C8 as stated fails: the scenario yields three rows, among them the
    temperature at time 0, and not the two rows of the claim. *)
Lemma scenario_yields_three_rows :
  exists out,
    output (final (_etl_eicu_vitals sample_sic_etl scenario_world)) !! "vitals.parquet"
    = Some out
    /\ length (rows out) = 3%nat
    /\ In [Int 1; Int 0; Str "temp_c"; Float (371 # 10)] (rows out)
    /\ rows out <> [ [Int 1; Int 0; Str "heart_rate"; Int 88];
                     [Int 1; Int 5; Str "temp_c"; Float (372 # 10)] ].
Proof.
  eexists. split; [vm_compute; reflexivity|]. cbn [rows].
  split; [reflexivity|]. split; [left; reflexivity|discriminate].
Qed.

(** ** The run as a whole *)

Ltac crunch :=
  repeat (cbn [attempt final then_ data output stdout print write_parquet rebase]
          || match goal with
             | |- context [attempt _ ?r _] => destruct r
             | |- context [if ?b then _ else _] => destruct b
             | |- context [match ?x with _ => _ end] => destruct x
             end).

Lemma rebase_world d o l out :
  rebase o l (Done (mkWorld d out.1 out.2))
  = Done (mkWorld d (out.1 ∪ o) (l ++ out.2)).
Proof. reflexivity. Qed.

Lemma insert_overlay (f : string) (v : DataFrame) (o : gmap string DataFrame) :
  <[f := v]> o = <[f := v]> ∅ ∪ o.
Proof. rewrite (insert_union_singleton_l o), insert_empty. reflexivity. Qed.

Ltac overlay :=
  unfold print, write_parquet; cbn [rebase data output stdout];
  rewrite <- ?insert_overlay, ?(left_id_L ∅ (∪)), <- ?app_assoc, ?app_nil_r;
  try reflexivity.

Lemma long_tail_rebase n m df d o l :
  long_tail n m df (mkWorld d o l) = rebase o l (long_tail n m df (mkWorld d ∅ [])).
Proof. unfold long_tail. crunch; overlay. Qed.

Lemma rebase_rebase o l o' l' out :
  rebase o l (rebase o' l' out) = rebase (o' ∪ o) (l ++ l') out.
Proof.
  destruct out as [w|e w]; cbn [rebase data output stdout];
    rewrite (assoc_L (∪)), app_assoc; reflexivity.
Qed.

Lemma rebasable_then F G :
  rebasable F -> rebasable G -> rebasable (fun w => then_ (F w) G).
Proof.
  intros HF HG d o l. cbn beta. rewrite (HF d o l).
  destruct (F (mkWorld d ∅ [])) as [[d1 o1 l1]|e w1]; cbn [rebase then_ data output stdout];
    [|reflexivity].
  rewrite (HG d1 (o1 ∪ o)), (HG d1 o1 l1), rebase_rebase. reflexivity.
Qed.

Lemma rebasable_print x F : rebasable F -> rebasable (fun w => F (print x w)).
Proof.
  intros HF d o l. unfold print. cbn [data output stdout].
  rewrite (HF d o), (HF d ∅ ([] ++ [x])), rebase_rebase.
  rewrite (left_id_L ∅ (∪)). reflexivity.
Qed.

Lemma rebasable_long_tail n m df : rebasable (long_tail n m df).
Proof. intros d o l. apply long_tail_rebase. Qed.

Lemma rebasable_id_adapter a self : rebasable (run_id_adapter a self).
Proof.
  intros d o l. rewrite !run_id_adapter_unfold. unfold started, print.
  cbn [data output stdout].
  replace (native a (mkWorld d o l)) with (native a (mkWorld d ∅ []))
    by (destruct a; reflexivity).
  replace (processing a (mkWorld d o l)) with (processing a (mkWorld d ∅ []))
    by (destruct a; reflexivity).
  destruct (native a (mkWorld d ∅ [])) as [rd|]; [|cbn; overlay].
  cbn zeta. destruct (resolve a self) as [m|e]; cbn [attempt]; [|cbn; overlay].
  destruct rd as [df|e]; cbn [attempt]; [|cbn; overlay].
  rewrite (long_tail_rebase _ _ _ d o), (long_tail_rebase _ _ _ d ∅ (_ ++ _)).
  rewrite rebase_rebase, (left_id_L ∅ (∪)). overlay.
Qed.

Lemma rebasable_eicu_vitals self : rebasable (_etl_eicu_vitals self).
Proof.
  intros d o l. unfold _etl_eicu_vitals, exists_, scan_csv, scan_file.
  cbn [data print]. crunch; overlay.
Qed.

Lemma rebasable_eicu_labs self : rebasable (_etl_eicu_labs self).
Proof.
  intros d o l. unfold _etl_eicu_labs, exists_, scan_csv, scan_file.
  cbn [data print]. crunch; overlay.
Qed.

Lemma rebasable_adapter a self : rebasable (run_adapter a self).
Proof.
  destruct a as [| |a| |]; cbn [run_adapter].
  - apply rebasable_eicu_vitals.
  - apply rebasable_eicu_labs.
  - apply rebasable_id_adapter.
  - intros d o l. cbn. overlay.
  - intros d o l. cbn. overlay.
Qed.

Lemma rebasable_etl ds self : rebasable (etl ds self).
Proof.
  intros d o l. rewrite !etl_steps.
  pose proof (rebasable_then _ _ (rebasable_adapter (vitals_step ds) self)
                (rebasable_adapter (labs_step ds) self)) as H.
  destruct ds; cbn [opened fold_left].
  - unfold exists_, print. cbn [data output stdout].
    repeat (match goal with
            | |- context [match d !! ?p with _ => _ end] => destruct (d !! p)
            end; cbn [data output stdout]);
      rewrite (H d o), (H d ∅ (_ ++ _)), rebase_rebase, (left_id_L ∅ (∪));
      overlay.
  - apply (rebasable_print _ _ H).
  - apply (rebasable_print _ _ H).
  - apply (rebasable_print _ _ H).
Qed.

Lemma rebasable_run self : rebasable (run self).
Proof.
  intros d o l. unfold run.
  assert (rebasable (fun w => Done (print Complete w))) as HC
    by (intros d' o' l'; overlay).
  assert (forall ds, rebasable (fun w => then_ (etl ds self (print (Banner (source self)) w))
                                          (fun w => Done (print Complete w)))) as H.
  { intros ds.
    apply (rebasable_print _ (fun w => then_ (etl ds self w) _)).
    apply rebasable_then; [apply rebasable_etl|exact HC]. }
  cbn zeta.
  destruct (String.eqb (source self) "eicu"); [apply (H Eicu)|].
  destruct (String.eqb (source self) "sic"); [apply (H Sic)|].
  destruct (String.eqb (source self) "hirid"); [apply (H Hirid)|].
  destruct (String.eqb (source self) "aumc"); [apply (H Aumc)|].
  cbn [then_]. overlay.
Qed.

(** *** The source directory is read-only *)

Lemma keeps_data_then F G : keeps_data F -> keeps_data G ->
  keeps_data (fun w => then_ (F w) G).
Proof.
  intros HF HG w. cbn beta. specialize (HF w).
  destruct (F w) as [w1|e w1]; cbn [then_ final] in *; [|exact HF].
  rewrite HG. exact HF.
Qed.

Lemma keeps_data_print x F : keeps_data F -> keeps_data (fun w => F (print x w)).
Proof. intros HF w. cbn beta. rewrite HF. reflexivity. Qed.

Lemma keeps_data_long_tail n m df : keeps_data (long_tail n m df).
Proof. intros w. unfold long_tail. crunch; reflexivity. Qed.

Lemma keeps_data_adapter a self : keeps_data (run_adapter a self).
Proof.
  intros w. destruct a as [| |a| |]; cbn [run_adapter].
  - unfold _etl_eicu_vitals. crunch; reflexivity.
  - unfold _etl_eicu_labs. crunch; reflexivity.
  - rewrite run_id_adapter_unfold. unfold started.
    destruct (native a w) as [rd|]; [|reflexivity]. cbn zeta.
    destruct (resolve a self); cbn [attempt final]; [|reflexivity].
    destruct rd; cbn [attempt final]; [|reflexivity].
    rewrite keeps_data_long_tail. reflexivity.
  - reflexivity.
  - reflexivity.
Qed.

Lemma keeps_data_etl ds self : keeps_data (etl ds self).
Proof.
  intros w. rewrite etl_steps.
  rewrite (keeps_data_then _ _ (keeps_data_adapter _ self) (keeps_data_adapter _ self)).
  destruct ds; try reflexivity.
  cbn [opened fold_left]. crunch; reflexivity.
Qed.

Lemma keeps_data_run self : keeps_data (run self).
Proof.
  assert (forall ds, keeps_data (fun w => then_ (etl ds self (print (Banner (source self)) w))
                                           (fun w => Done (print Complete w)))) as H.
  { intros ds. apply (keeps_data_print _ (fun w => then_ (etl ds self w) _)).
    apply keeps_data_then; [apply keeps_data_etl|intros w; reflexivity]. }
  intros w. unfold run. cbn zeta.
  destruct (String.eqb (source self) "eicu"); [apply (H Eicu)|].
  destruct (String.eqb (source self) "sic"); [apply (H Sic)|].
  destruct (String.eqb (source self) "hirid"); [apply (H Hirid)|].
  destruct (String.eqb (source self) "aumc"); [apply (H Aumc)|].
  reflexivity.
Qed.

(** *** What is written is canonical *)

Lemma select_rows cs df d1 r :
  select cs df = Ok d1 -> In r (rows d1) ->
  columns d1 = cs /\ exists r0, r = map (fun c => cell_at (columns df) c r0) cs.
Proof.
  unfold select. destruct (forallb _ _); [|discriminate].
  intros H Hin. inversion H; subst. cbn in *. split; [reflexivity|].
  apply in_map_iff in Hin as (r0 & <- & _). eauto.
Qed.

Lemma filter_col_rows c p d1 d2 r :
  filter_col c p d1 = Ok d2 -> In r (rows d2) ->
  columns d2 = columns d1 /\ In r (rows d1) /\ p (cell_at (columns d1) c r) = true.
Proof.
  unfold filter_col. destruct (has_column _ _); [|discriminate].
  intros H Hin. inversion H; subst. cbn in *.
  apply filter_In in Hin as [Hin Hp]. auto.
Qed.

Lemma filter_col_columns c p d1 d2 :
  filter_col c p d1 = Ok d2 -> columns d2 = columns d1.
Proof.
  unfold filter_col. destruct (has_column _ _); [|discriminate].
  intros H. inversion H; subst. reflexivity.
Qed.

Lemma select_columns cs df d1 : select cs df = Ok d1 -> columns d1 = cs.
Proof.
  unfold select. destruct (forallb _ _); [|discriminate].
  intros H. inversion H; subst. reflexivity.
Qed.

(** A frame selected on four columns, the first [hospitalization_id], and
    filtered on the fourth being not null, is canonical. *)
Lemma select_filter_canonical c1 c2 v df d1 d2 :
  select ["hospitalization_id"; c1; c2; v] df = Ok d1 ->
  filter_col v is_not_null d1 = Ok d2 ->
  canonical_frame d2.
Proof.
  intros Hs Hf. unfold canonical_frame.
  rewrite (filter_col_columns _ _ _ _ Hf), (select_columns _ _ _ Hs).
  split; [reflexivity|]. split; [reflexivity|]. intros r Hin.
  destruct (filter_col_rows _ _ _ _ _ Hf Hin) as (_ & Hin1 & Hp).
  destruct (select_rows _ _ _ _ Hs Hin1) as (Hc & r0 & ->).
  rewrite Hc, cell_at_map in Hp by (right; right; right; left; reflexivity).
  cbn [map nth length]. split; [reflexivity|]. intros E. rewrite E in Hp. discriminate.
Qed.

Ltac crunch_eq :=
  repeat (cbn [attempt final then_ data output stdout print write_parquet]
          || match goal with
             | |- context [attempt _ ?r _] => destruct r eqn:?
             | |- context [if ?b then _ else _] => destruct b eqn:?
             | |- context [match ?x with _ => _ end] => destruct x eqn:?
             end).

Ltac written f Hs Hf :=
  let H := fresh in
  intros H; apply lookup_insert_Some in H as [[<- <-]|[_ H]]; [right|left; exact H];
  split; [auto|]; eapply select_filter_canonical; [exact Hs|exact Hf].

Lemma writes_canonical_long_tail a m df : writes_canonical (long_tail (names a) m df).
Proof.
  intros w f out. unfold long_tail. unfold clif_columns.
  destruct a; cbn [names sic_vitals_names sic_labs_names hirid_names aumc_names
                     id_col enc_col time_col val_col time_name cat_name val_name
                     out_file what];
    crunch_eq; auto;
    match goal with
    | Hs : select _ _ = Ok ?d1, Hf : filter_col _ _ ?d1 = Ok _ |- _ => written f Hs Hf
    end.
Qed.

Lemma writes_canonical_then F G :
  writes_canonical F -> writes_canonical G ->
  writes_canonical (fun w => then_ (F w) G).
Proof.
  intros HF HG w f df. cbn beta. specialize (HF w f df).
  destruct (F w) as [w1|e w1]; cbn [then_ final] in *; [|exact HF].
  intros H. destruct (HG w1 f df H) as [H1|H1]; auto.
Qed.

Lemma writes_canonical_print x F :
  writes_canonical F -> writes_canonical (fun w => F (print x w)).
Proof. intros HF w f df. apply (HF (print x w)). Qed.

Lemma writes_canonical_adapter a self : writes_canonical (run_adapter a self).
Proof.
  intros w f out. destruct a as [| |a| |]; cbn [run_adapter].
  - unfold _etl_eicu_vitals. crunch_eq; auto.
    match goal with
    | Hs : select _ ?d0 = Ok ?d1, Hf : filter_col _ _ ?d1 = Ok _ |- _ => written f Hs Hf
    end.
  - unfold _etl_eicu_labs. crunch_eq; auto.
    match goal with
    | Hs : select _ ?d0 = Ok ?d1, Hf : filter_col _ _ ?d1 = Ok _ |- _ => written f Hs Hf
    end.
  - rewrite run_id_adapter_unfold. unfold started.
    destruct (native a w) as [rd|]; [|auto]. cbn zeta.
    destruct (resolve a self); cbn [attempt final]; [|auto].
    destruct rd; cbn [attempt final]; [|auto].
    intros H. apply writes_canonical_long_tail in H. exact H.
  - auto.
  - auto.
Qed.

Lemma writes_canonical_etl ds self : writes_canonical (etl ds self).
Proof.
  intros w f df. rewrite etl_steps. intros H.
  apply (writes_canonical_then _ _ (writes_canonical_adapter _ self)
           (writes_canonical_adapter _ self)) in H.
  replace (output (opened ds w)) with (output w) in H; [exact H|].
  destruct ds; try reflexivity. cbn [opened fold_left]. crunch; reflexivity.
Qed.

Lemma writes_canonical_run self : writes_canonical (run self).
Proof.
  assert (forall ds, writes_canonical
                       (fun w => then_ (etl ds self (print (Banner (source self)) w))
                                   (fun w => Done (print Complete w)))) as H.
  { intros ds. apply (writes_canonical_print _ (fun w => then_ (etl ds self w) _)).
    apply writes_canonical_then; [apply writes_canonical_etl|].
    intros w f df Hf. left. exact Hf. }
  intros w. unfold run. cbn zeta.
  destruct (String.eqb (source self) "eicu"); [apply (H Eicu)|].
  destruct (String.eqb (source self) "sic"); [apply (H Sic)|].
  destruct (String.eqb (source self) "hirid"); [apply (H Hirid)|].
  destruct (String.eqb (source self) "aumc"); [apply (H Aumc)|].
  intros f df Hf. left. exact Hf.
Qed.

Lemma run_overlays_prior_output_aux self w :
  data (final (run self w)) = data w
  /\ output (final (run self w)) = writes self (data w) ∪ output w
  /\ exists printed, stdout (final (run self w)) = stdout w ++ printed.
Proof.
  split; [apply keeps_data_run|].
  destruct w as [d o l]. unfold writes. cbn [data output stdout].
  rewrite (rebasable_run self d o l).
  destruct (run self (mkWorld d ∅ [])) as [w1|e w1]; cbn [rebase final output stdout];
    eauto.
Qed.

Lemma written_files_are_canonical_aux self d f df :
  writes self d !! f = Some df -> canonical_file f df.
Proof.
  unfold writes. intros H.
  destruct (writes_canonical_run self _ _ _ H) as [H0|H0]; [|exact H0].
  cbn in H0. rewrite lookup_empty in H0. discriminate.
Qed.

(** X1.  A run reads the source directory and nothing else: the source
    directory is left as it is, the files written are a function of the
    mapping tables and the source directory and are laid over the output
    directory found, and the console is only added to. *)
Theorem run_overlays_prior_output self w :
  data (final (run self w)) = data w
  /\ output (final (run self w)) = writes self (data w) ∪ output w
  /\ exists printed, stdout (final (run self w)) = stdout w ++ printed.
Proof. apply run_overlays_prior_output_aux. Qed.

(** X2.  Whatever a run writes is one of [vitals.parquet] and [labs.parquet],
    has four columns starting with [hospitalization_id], four cells in
    every row and no null value. *)
Theorem written_files_are_canonical self d f df :
  writes self d !! f = Some df -> canonical_file f df.
Proof. apply written_files_are_canonical_aux. Qed.

(** X3.  A run neither creates nor changes a file other than [vitals.parquet]
    and [labs.parquet]. *)
Theorem run_touches_two_files_only self w f :
  f <> "vitals.parquet" -> f <> "labs.parquet" ->
  output (final (run self w)) !! f = output w !! f.
Proof.
  intros H1 H2. destruct (run_overlays_prior_output_aux self w) as (_ & -> & _).
  apply lookup_union_r.
  destruct (writes self (data w) !! f) as [df|] eqn:E; [|reflexivity].
  destruct (written_files_are_canonical_aux _ _ _ _ E) as [[->| ->] _]; contradiction.
Qed.

(** X4.  Running twice in a row leaves the output directory as running once. *)
Theorem run_twice_same_output self w :
  output (final (run self (final (run self w)))) = output (final (run self w)).
Proof.
  destruct (run_overlays_prior_output_aux self (final (run self w))) as (_ & -> & _).
  destruct (run_overlays_prior_output_aux self w) as (-> & -> & _).
  rewrite (assoc_L (∪)), (idemp_L (∪) (writes self (data w))). reflexivity.
Qed.

Lemma written_files_are_canonical_witness :
  exists df,
    writes albumin_etl (data lab_world) !! "labs.parquet" = Some df
    /\ canonical_file "labs.parquet" df.
Proof.
  eexists. split; [vm_compute; reflexivity|].
  apply (written_files_are_canonical albumin_etl (data lab_world)).
  vm_compute. reflexivity.
Defined.

Lemma run_touches_two_files_only_witness :
  output (final (run sample_sic_etl sic_world)) !! "notes.parquet"
  = output sic_world !! "notes.parquet".
Proof.
  apply (run_touches_two_files_only sample_sic_etl sic_world "notes.parquet");
    discriminate.
Defined.

(** ** Construction and dispatch *)

(** X5.  [__init__] loads all four mapping tables or none: it raises
    [FileNotFoundError] as soon as one of the four directories has no csv
    file, also one that no adapter reads; otherwise the object holds the
    first file of each directory and one line is printed. *)
Theorem init_needs_all_four_mappings mappings_dir source w :
  ((exists t, In t mapping_types /\ glob_csv mappings_dir t = []) ->
   __init__ mappings_dir source w = Raise FileNotFoundError)
  /\ (forall v vs l ls m ms r rs,
        glob_csv mappings_dir "vitals" = v :: vs ->
        glob_csv mappings_dir "labs" = l :: ls ->
        glob_csv mappings_dir "medications" = m :: ms ->
        glob_csv mappings_dir "respiratory_support" = r :: rs ->
        __init__ mappings_dir source w
        = Ok (mkETL source (source +:+ "_ids") (snd v) (snd l) (snd m) (snd r),
              print (LoadedMappings source (height (snd v)) (height (snd l))
                       (height (snd m)) (height (snd r))) w)).
Proof.
  unfold __init__, load_mappings. split.
  - intros (t & Ht & Hnone).
    destruct (glob_csv mappings_dir "vitals") eqn:E1; [reflexivity|].
    destruct (glob_csv mappings_dir "labs") eqn:E2; [reflexivity|].
    destruct (glob_csv mappings_dir "medications") eqn:E3; [reflexivity|].
    destruct (glob_csv mappings_dir "respiratory_support") eqn:E4; [reflexivity|].
    exfalso. simpl in Ht. destruct Ht as [<-|[<-|[<-|[<-|[]]]]]; congruence.
  - intros v vs l ls m ms r rs -> -> -> ->. reflexivity.
Qed.

Lemma init_needs_all_four_mappings_witness :
  glob_csv two_candidates "medications" = []
  /\ __init__ two_candidates "sic" empty_world = Raise FileNotFoundError.
Proof.
  assert (glob_csv two_candidates "medications" = []) as H by (vm_compute; reflexivity).
  split; [exact H|].
  apply (proj1 (init_needs_all_four_mappings two_candidates "sic" empty_world)).
  exists "medications". split; [|exact H]. right. right. left. reflexivity.
Defined.

(** X6.  The adapters read the vitals and the labs mapping tables only: two
    objects that agree on the source name and on these two tables run
    alike, whatever their medication and respiratory tables are. *)
Theorem run_ignores_medication_and_respiratory_tables self self' w :
  source self = source self' ->
  vitals_map self = vitals_map self' ->
  labs_map self = labs_map self' ->
  run self w = run self' w.
Proof.
  destruct self as [s c v l m r], self' as [s' c' v' l' m' r']. cbn.
  intros -> -> ->. reflexivity.
Qed.

Lemma run_ignores_medication_and_respiratory_tables_witness :
  run sample_sic_etl sic_world
  = run (mkETL "sic" "" sample_vitals_map no_table sic_table sic_table) sic_world.
Proof.
  apply run_ignores_medication_and_respiratory_tables; reflexivity.
Defined.

(** X7.  [run] handles exactly the names of [SUPPORTED_SOURCES], the choices
    of the command line: for each of them it prints the banner, runs that
    dataset's driver and prints the completion line; for any other name it
    raises [ValueError] right after the banner, with nothing written. *)
Theorem run_dispatches_on_source self w :
  (In (source self) SUPPORTED_SOURCES ->
   exists ds,
     source self = source_name ds
     /\ run self w
        = then_ (etl ds self (print (Banner (source self)) w))
            (fun w' => Done (print Complete w')))
  /\ (~ In (source self) SUPPORTED_SOURCES ->
      run self w = Failed ValueError (print (Banner (source self)) w)).
Proof.
  unfold run. cbn zeta. split.
  - intros [E|[E|[E|[E|[]]]]]; rewrite <- E;
      [exists Eicu|exists Hirid|exists Aumc|exists Sic]; split; reflexivity.
  - intros Hno.
    destruct (String.eqb_spec (source self) "eicu") as [E|_];
      [exfalso; apply Hno; rewrite E; simpl; auto|].
    destruct (String.eqb_spec (source self) "sic") as [E|_];
      [exfalso; apply Hno; rewrite E; simpl; auto 6|].
    destruct (String.eqb_spec (source self) "hirid") as [E|_];
      [exfalso; apply Hno; rewrite E; simpl; auto|].
    destruct (String.eqb_spec (source self) "aumc") as [E|_];
      [exfalso; apply Hno; rewrite E; simpl; auto|].
    reflexivity.
Qed.

Lemma run_dispatches_on_source_witness :
  ~ In "mimic" SUPPORTED_SOURCES
  /\ run (mkETL "mimic" "mimic_ids" no_table no_table no_table no_table) sic_world
     = Failed ValueError (print (Banner "mimic") sic_world).
Proof.
  assert (~ In "mimic" SUPPORTED_SOURCES) as H
    by (simpl; intros [E|[E|[E|[E|[]]]]]; discriminate).
  split; [exact H|].
  exact (proj2 (run_dispatches_on_source
                  (mkETL "mimic" "mimic_ids" no_table no_table no_table no_table)
                  sic_world) H).
Defined.

(** ** Edge cases of the adapters *)

(** X9.  [_etl_eicu_labs] has no early return on an empty result: when [lab.csv] has no row,
    or no row with a value, it still writes [labs.parquet], without rows. *)
Theorem eicu_labs_writes_empty_file self w df lab_map :
  data w !! "lab.csv" = Some (File df) ->
  build_lab_map (labs_map self) = Ok lab_map ->
  forallb (has_column (columns df))
    ["patientunitstayid"; "labresultoffset"; "labname"; "labresult"] = true ->
  (forall r, In r (rows df) -> cell_at (columns df) "labresult" r = Null) ->
  _etl_eicu_labs self w
  = Done (print (Wrote 0 "labs.parquet")
            (write_parquet "labs.parquet" (mkDF lab_columns [])
               (print (Processing "labs" "lab.csv") w))).
Proof.
  intros Hfile Hmap Hcols Hnull.
  rewrite (eicu_labs_spec self w df lab_map Hfile Hmap Hcols). cbn zeta.
  replace (List.filter _ (rows df)) with (@nil (list cell)); [reflexivity|].
  symmetry. induction (rows df) as [|r rs IH]; [reflexivity|]. simpl.
  rewrite (Hnull r (or_introl eq_refl)). simpl.
  apply IH. intros r' Hr'. apply Hnull. right. exact Hr'.
Qed.

Lemma eicu_labs_writes_empty_file_witness :
  data empty_lab_world !! "lab.csv" = Some (File empty_lab_table)
  /\ output (final (_etl_eicu_labs albumin_etl empty_lab_world)) !! "labs.parquet"
     = Some (mkDF lab_columns []).
Proof.
  assert (data empty_lab_world !! "lab.csv" = Some (File empty_lab_table)) as H1
    by (vm_compute; reflexivity).
  assert (build_lab_map (labs_map albumin_etl) = Ok {[ "albumin" := Str "albumin" ]})
    as H2 by (vm_compute; reflexivity).
  split; [exact H1|].
  rewrite (eicu_labs_writes_empty_file albumin_etl empty_lab_world empty_lab_table
             _ H1 H2 ltac:(vm_compute; reflexivity)).
  - cbn. apply lookup_insert_eq.
  - intros r [].
Defined.

Lemma value_cols_of_nil available :
  (forall c, In c (map fst eicu_vital_map) -> ~ In c available) ->
  value_cols_of available = [].
Proof.
  intros H. unfold value_cols_of.
  induction (map fst eicu_vital_map) as [|c cs IH]; [reflexivity|]. simpl.
  rewrite bool_decide_eq_false_2.
  - apply IH. intros c' Hc'. apply H. right. exact Hc'.
  - intros Hin. apply (H c (or_introl eq_refl)). apply list_elem_of_In. exact Hin.
Qed.

(** X10.  [_etl_eicu_vitals] on a table with the two identifier columns and
    none of the seven vital columns it knows: it returns normally after its
    processing line, writes nothing and prints nothing more. *)
Theorem eicu_vitals_without_known_column self w df :
  data w !! "vitalperiodic.csv" = Some (File df) ->
  forallb (has_column (columns df)) ["patientunitstayid"; "observationoffset"] = true ->
  (forall c, In c (map fst eicu_vital_map) -> ~ In c (columns df)) ->
  _etl_eicu_vitals self w = Done (print (Processing "vitals" "vitalperiodic.csv") w).
Proof.
  intros Hfile Hids Hnone.
  rewrite (eicu_vitals_spec self w df Hfile Hids). cbn zeta.
  rewrite (value_cols_of_nil _ Hnone). reflexivity.
Qed.

Lemma eicu_vitals_without_known_column_witness :
  data unknown_vitals_world !! "vitalperiodic.csv" = Some (File unknown_vitals_table)
  /\ _etl_eicu_vitals sample_sic_etl unknown_vitals_world
     = Done (print (Processing "vitals" "vitalperiodic.csv") unknown_vitals_world).
Proof.
  assert (data unknown_vitals_world !! "vitalperiodic.csv"
          = Some (File unknown_vitals_table)) as H1 by (vm_compute; reflexivity).
  split; [exact H1|].
  apply (eicu_vitals_without_known_column sample_sic_etl unknown_vitals_world
           unknown_vitals_table H1 ltac:(vm_compute; reflexivity)).
  intros c Hc Hin. simpl in Hc, Hin.
  repeat destruct Hc as [<-|Hc]; try contradiction;
    repeat destruct Hin as [Hin|Hin]; try discriminate; contradiction.
Defined.

(** X11.  A native table without the item-identifier column makes an
    identifier-keyed adapter raise a polars error at the filter, after the
    lookup is built and announced; nothing is written. *)
Theorem missing_identifier_column_raises (a : id_adapter) self w m df :
  native a w = Some (Ok df) ->
  resolve a self = Ok m ->
  ~ In (id_col (names a)) (columns df) ->
  run_id_adapter a self w = Failed PolarsError (started a m w)
  /\ output (final (run_id_adapter a self w)) = output w.
Proof.
  intros Hnat Hres Hno.
  assert (run_id_adapter a self w = Failed PolarsError (started a m w)) as E.
  { rewrite run_id_adapter_unfold, Hnat. cbn zeta. rewrite Hres. cbn [attempt].
    unfold long_tail, filter_col.
    destruct (has_column (columns df) (id_col (names a))) eqn:Hc; [|reflexivity].
    apply has_column_In in Hc. contradiction. }
  rewrite E. split; reflexivity.
Qed.

Lemma missing_identifier_column_raises_witness :
  native SicVitals headless_world = Some (Ok headless_table)
  /\ resolve SicVitals sample_sic_etl = Ok sample_lookup
  /\ run_id_adapter SicVitals sample_sic_etl headless_world
     = Failed PolarsError (started SicVitals sample_lookup headless_world).
Proof.
  assert (native SicVitals headless_world = Some (Ok headless_table)) as H1
    by (vm_compute; reflexivity).
  assert (resolve SicVitals sample_sic_etl = Ok sample_lookup) as H2
    by (vm_compute; reflexivity).
  split; [exact H1|]. split; [exact H2|].
  apply (missing_identifier_column_raises SicVitals sample_sic_etl headless_world
           sample_lookup headless_table H1 H2).
  simpl. intros [E|[E|[E|[]]]]; discriminate.
Defined.

(** X12.  [_etl_hirid_vitals] when [observation_tables], or in its absence
    [observations], exists as a regular file: the adapter takes the branch
    that reads [obs_file], a variable it binds only when neither path
    exists, and raises [UnboundLocalError], even if [observations.parquet]
    is there; nothing is written. *)
Theorem hirid_file_for_directory_raises self w m :
  resolve HiridVitals self = Ok m ->
  is_file w "observation_tables"
  \/ (data w !! "observation_tables" = None /\ is_file w "observations") ->
  _etl_hirid_vitals self w = Failed UnboundLocalError (started HiridVitals m w)
  /\ output (final (_etl_hirid_vitals self w)) = output w.
Proof.
  intros Hres Hfile.
  assert (native HiridVitals w = Some (Raise UnboundLocalError)) as Hnat.
  { cbn [native]. unfold exists_, scan_obs_dir.
    destruct Hfile as [[df E]|[E0 [df E]]].
    - rewrite E. reflexivity.
    - rewrite E0, E. reflexivity. }
  assert (_etl_hirid_vitals self w = Failed UnboundLocalError (started HiridVitals m w))
    as E.
  { change (_etl_hirid_vitals self w) with (run_id_adapter HiridVitals self w).
    rewrite run_id_adapter_unfold, Hnat. cbn zeta. rewrite Hres. reflexivity. }
  rewrite E. split; reflexivity.
Qed.

Lemma hirid_file_for_directory_raises_witness :
  exists m,
    resolve HiridVitals sample_hirid_etl = Ok m
    /\ data flat_hirid_world !! "observations.parquet" = Some (File observations_table)
    /\ _etl_hirid_vitals sample_hirid_etl flat_hirid_world
       = Failed UnboundLocalError (started HiridVitals m flat_hirid_world).
Proof.
  assert (exists m, resolve HiridVitals sample_hirid_etl = Ok m) as [m Hm]
    by (vm_compute; eauto).
  exists m. split; [exact Hm|]. split; [vm_compute; reflexivity|].
  apply (hirid_file_for_directory_raises sample_hirid_etl flat_hirid_world m Hm).
  right. split; [vm_compute; reflexivity|].
  exists observations_table. vm_compute. reflexivity.
Defined.

(** ** More on the resolvers *)

Lemma named_row_absent cols r c : ~ In c cols -> named_row cols r !! c = None.
Proof.
  intros Hc. unfold named_row. apply not_elem_of_list_to_map_1.
  intros Hin. apply Hc. apply list_elem_of_In.
  apply list_elem_of_fmap in Hin as [[c' v] [-> Hin]].
  revert r Hin. induction cols as [|x xs IH]; intros [|y ys] Hin; simpl in Hin;
    try (inversion Hin; fail).
  apply elem_of_cons in Hin as [E|Hin].
  - inversion E; subst. left.
  - right. apply (IH ltac:(intros H; apply Hc; right; exact H) ys Hin).
Qed.

Lemma add_row_without_field ids_col cat_col m row :
  row !! ids_col = None -> add_row ids_col cat_col m row = Ok m.
Proof. intros H. unfold add_row, get_or_empty. rewrite H. reflexivity. Qed.

Lemma build_id_map_without_column ids_col cat_col table init :
  ~ In ids_col (columns table) -> build_id_map ids_col cat_col table init = Ok init.
Proof.
  intros Hc. unfold build_id_map, iter_rows.
  induction (rows table) as [|r rs IH]; [reflexivity|]. simpl.
  rewrite add_row_without_field by (apply named_row_absent, Hc). exact IH.
Qed.

Lemma no_match_empty n df : no_match n ∅ df = true.
Proof.
  unfold no_match. apply forallb_forall. intros r _.
  destruct (cell_at (columns df) (id_col n) r); reflexivity.
Qed.

(** X13.  Mapping tables without the identifier column of a dataset (the
    default of [row.get] is the empty string) give an empty lookup without
    any error, and the adapter then reports no match for every native table
    and writes nothing. *)
Theorem mapping_without_ids_column_maps_nothing (a : id_adapter) self :
  ~ In (ids_column a) (columns (vitals_map self)) ->
  ~ In (ids_column a) (columns (labs_map self)) ->
  resolve a self = Ok ∅
  /\ (forall w df,
        native a w = Some (Ok df) ->
        In (id_col (names a)) (columns df) ->
        run_id_adapter a self w
        = Done (print (NoMatching (what (names a))) (started a ∅ w))).
Proof.
  intros Hv Hl.
  assert (resolve a self = Ok ∅) as Hres.
  { destruct a; cbn [resolve ids_column] in *; unfold build_merged_id_map;
      rewrite ?build_id_map_without_column by assumption; cbn;
      rewrite ?build_id_map_without_column by assumption; reflexivity. }
  split; [exact Hres|]. intros w df Hnat Hid.
  rewrite run_id_adapter_unfold, Hnat. cbn zeta. rewrite Hres. cbn [attempt].
  apply long_tail_no_match; [apply has_column_In, Hid|apply no_match_empty].
Qed.

Lemma mapping_without_ids_column_maps_nothing_witness :
  resolve SicVitals ricu_etl = Ok ∅
  /\ run_id_adapter SicVitals ricu_etl sic_world
     = Done (print (NoMatching "DataIDs") (started SicVitals ∅ sic_world)).
Proof.
  destruct (mapping_without_ids_column_maps_nothing SicVitals ricu_etl)
    as [Hres Hrun].
  - simpl. intros [E|[E|[E|[]]]]; discriminate.
  - simpl. intros [].
  - split; [exact Hres|].
    apply (Hrun sic_world sic_table); [vm_compute; reflexivity|].
    simpl. auto.
Defined.







Lemma add_lab_row_lookup s row d :
  add_lab_row s row = Ok d ->
  forall k, d !! k = if decide (label_key row = Some k)
                     then row !! "lab_category" else s !! k.
Proof.
  unfold add_lab_row, label_key, getitem. intros H k.
  destruct (get_or_empty row "eicu_ids") as [|z|q|t].
  - inversion H; subst. rewrite decide_False by discriminate. reflexivity.
  - destruct (truthy (Int z)); [destruct (row !! "lab_category"); discriminate|].
    inversion H; subst. rewrite decide_False by discriminate. reflexivity.
  - destruct (truthy (Float q)); [destruct (row !! "lab_category"); discriminate|].
    inversion H; subst. rewrite decide_False by discriminate. reflexivity.
  - cbn [truthy] in *. destruct (Py.nonempty t && negb (String.eqb t "nan")).
    + destruct (row !! "lab_category") as [c|]; simpl in H; [|discriminate].
      inversion H; subst. destruct (decide (Some (Py.lower t) = Some k)) as [E|E].
      * inversion E; subst. apply lookup_insert_eq.
      * apply lookup_insert_ne. congruence.
    + inversion H; subst. rewrite decide_False by discriminate. reflexivity.
Qed.

Lemma lab_rows_lookup_other es s d k :
  for_each es add_lab_row s = Ok d ->
  (forall e, In e es -> label_key e <> Some k) ->
  d !! k = s !! k.
Proof.
  revert s. induction es as [|e es IH]; intros s H Hun; simpl in H.
  - inversion H; subst. reflexivity.
  - destruct (add_lab_row s e) as [s1|x] eqn:E1; simpl in H; [|discriminate].
    rewrite (IH _ H) by (intros; apply Hun; right; assumption).
    rewrite (add_lab_row_lookup _ _ _ E1 k).
    rewrite decide_False by (apply Hun; left; reflexivity). reflexivity.
Qed.

(** X15.  Labels are matched without regard to letter case: a [lab.csv] row
    whose label equals, once lower-cased, the lower-cased identifier field
    of a labs entry that no later entry repeats is written with that
    entry's category (if its value is not null). *)
Theorem eicu_label_match_ignores_case self w df lab_map es1 e es2 s c r l :
  data w !! "lab.csv" = Some (File df) ->
  build_lab_map (labs_map self) = Ok lab_map ->
  forallb (has_column (columns df))
    ["patientunitstayid"; "labresultoffset"; "labname"; "labresult"] = true ->
  iter_rows (labs_map self) = es1 ++ e :: es2 ->
  e !! "eicu_ids" = Some (Str s) -> s <> "" -> s <> "nan" ->
  e !! "lab_category" = Some c ->
  (forall e', In e' es2 -> label_key e' <> Some (Py.lower s)) ->
  In r (rows df) ->
  cell_at (columns df) "labname" r = Str l ->
  Py.lower l = Py.lower s ->
  is_not_null (cell_at (columns df) "labresult" r) = true ->
  exists w' out,
    _etl_eicu_labs self w = Done w'
    /\ output w' !! "labs.parquet" = Some out
    /\ In [ cell_at (columns df) "patientunitstayid" r;
            cell_at (columns df) "labresultoffset" r;
            c;
            cell_at (columns df) "labresult" r ] (rows out).
Proof.
  intros Hfile Hmap Hcols Hrows Hids Hne Hnan Hcat Hlater Hin Hl Hcase Hval.
  assert (lab_map !! Py.lower s = Some c) as Hm.
  { unfold build_lab_map in Hmap. rewrite Hrows, for_each_app in Hmap.
    destruct (for_each es1 add_lab_row ∅) as [s1|x]; simpl in Hmap; [|discriminate].
    destruct (add_lab_row s1 e) as [s2|x] eqn:He; simpl in Hmap; [|discriminate].
    rewrite (lab_rows_lookup_other _ _ _ _ Hmap Hlater).
    rewrite (add_lab_row_lookup _ _ _ He (Py.lower s)).
    rewrite decide_True; [exact Hcat|].
    unfold label_key, get_or_empty. rewrite Hids. unfold default. cbn [from_option id].
    destruct (String.eqb_spec s "nan"); [contradiction|].
    destruct s; [contradiction|reflexivity]. }
  rewrite (eicu_labs_spec self w df lab_map Hfile Hmap Hcols). cbn zeta.
  eexists. eexists. split; [reflexivity|]. split; [apply lookup_insert_eq|].
  cbn [rows].
  replace c
    with (replace (lookup_str lab_map) (to_lowercase (cell_at (columns df) "labname" r)))
    by (rewrite Hl; unfold replace; simpl; rewrite Hcase, Hm; reflexivity).
  apply (in_map (lab_record lab_map (columns df))).
  apply filter_In. auto.
Qed.

Lemma eicu_label_match_ignores_case_witness :
  exists w' out,
    _etl_eicu_labs cased_etl lab_world = Done w'
    /\ output w' !! "labs.parquet" = Some out
    /\ In [Int 1; Int 3; Str "albumin"; Float 4] (rows out).
Proof.
  assert (exists m, build_lab_map (labs_map cased_etl) = Ok m) as [m Hm]
    by (vm_compute; eauto).
  apply (eicu_label_match_ignores_case cased_etl lab_world lab_table m
           [named_row (columns cased_map) [Str "sodium"; Str "sodium"]]
           (named_row (columns cased_map) [Str "albumin"; Str "ALBUMIN"]) []
           "ALBUMIN" (Str "albumin") [Int 1; Int 3; Str "ALBUMIN"; Float 4] "ALBUMIN");
    try (vm_compute; reflexivity); try discriminate.
  - exact Hm.
  - intros e' [].
  - left. reflexivity.
Defined.

(** ** Decimal text *)

Ltac each_char c :=
  destruct c as [[] [] [] [] [] [] [] []]; try discriminate; try reflexivity.

Lemma decimal_char_not_space c :
  Py.isdecimal_char c = true -> Py.isspace_char c = false.
Proof. each_char c. Qed.

Lemma decimal_char_not_semicolon c :
  Py.isdecimal_char c = true -> Ascii.eqb c ";" = false.
Proof. each_char c. Qed.

Lemma decimal_char_not_n c :
  Py.isdecimal_char c = true -> Ascii.eqb c "n" = false.
Proof. each_char c. Qed.

Lemma rstrip_no_space s :
  Py.all_chars (fun c => negb (Py.isspace_char c)) s = true -> Py.rstrip s = s.
Proof.
  induction s as [|c s IH]; [reflexivity|]. cbn [Py.all_chars Py.rstrip].
  intros H. apply andb_prop in H as [Hc Hs]. apply negb_true_iff in Hc.
  rewrite Hc, (IH Hs). reflexivity.
Qed.

Lemma all_chars_impl (p q : ascii -> bool) s :
  (forall c, p c = true -> q c = true) ->
  Py.all_chars p s = true -> Py.all_chars q s = true.
Proof.
  intros Hpq. induction s as [|c s IH]; [reflexivity|]. cbn [Py.all_chars].
  intros H. apply andb_prop in H as [Hc Hs]. rewrite (Hpq c Hc), (IH Hs). reflexivity.
Qed.

Lemma strip_no_space s :
  Py.all_chars (fun c => negb (Py.isspace_char c)) s = true -> Py.strip s = s.
Proof.
  intros H. unfold Py.strip.
  replace (Py.lstrip s) with s; [apply rstrip_no_space, H|].
  destruct s as [|c s]; [reflexivity|]. cbn [Py.all_chars Py.lstrip] in *.
  apply andb_prop in H as [Hc _]. apply negb_true_iff in Hc. rewrite Hc. reflexivity.
Qed.

Lemma decimal_no_space s :
  Py.all_chars Py.isdecimal_char s = true ->
  Py.all_chars (fun c => negb (Py.isspace_char c)) s = true.
Proof.
  apply all_chars_impl. intros c Hc. rewrite (decimal_char_not_space c Hc). reflexivity.
Qed.

Lemma split_no_separator sep s :
  Py.all_chars (fun c => negb (Ascii.eqb c sep)) s = true -> Py.split sep s = [s].
Proof.
  induction s as [|c s IH]; [reflexivity|]. cbn [Py.all_chars Py.split].
  intros H. apply andb_prop in H as [Hc Hs]. apply negb_true_iff in Hc.
  rewrite Hc, (IH Hs). reflexivity.
Qed.

Lemma uint_text_decimal d :
  Py.all_chars Py.isdecimal_char (NilEmpty.string_of_uint d) = true.
Proof. induction d; cbn [NilEmpty.string_of_uint Py.all_chars]; auto. Qed.

Lemma int_acc_uint_text d acc :
  Py.int_acc (Z.pos acc) (NilEmpty.string_of_uint d)
  = Some (Z.pos (Pos.of_uint_acc d acc)).
Proof.
  revert acc.
  induction d; intros acc; cbn [NilEmpty.string_of_uint Py.int_acc Pos.of_uint_acc];
    [reflexivity|..];
    match goal with
    | |- context [Py.isdecimal_char ?c] =>
        change (Py.isdecimal_char c) with true; cbv iota;
        let v := eval vm_compute in (Z.of_N (Py.ord c - 48)) in
        change (Z.of_N (Py.ord c - 48)) with v
    end;
    rewrite <- IHd; f_equal; lia.
Qed.

Lemma int_acc_uint_text_0 d :
  Py.int_acc 0 (NilEmpty.string_of_uint d) = Some (Z.of_N (Pos.of_uint d)).
Proof.
  induction d; cbn [NilEmpty.string_of_uint Py.int_acc Pos.of_uint];
    [reflexivity|exact IHd|..];
    match goal with
    | |- context [Py.isdecimal_char ?c] =>
        change (Py.isdecimal_char c) with true; cbv iota;
        let v := eval vm_compute in (10 * 0 + Z.of_N (Py.ord c - 48))%Z in
        change (10 * 0 + Z.of_N (Py.ord c - 48))%Z with v
    end;
    apply int_acc_uint_text.
Qed.

Lemma positive_text p :
  Py.str_of_int (Z.pos p) = NilEmpty.string_of_uint (Pos.to_uint p)
  /\ Py.nonempty (Py.str_of_int (Z.pos p)) = true.
Proof.
  unfold Py.str_of_int. cbn [Z.to_int NilZero.string_of_int].
  pose proof (Unsigned.to_uint_nonnil p) as Hn.
  destruct (Pos.to_uint p); [contradiction|..]; split; reflexivity.
Qed.

(** [str] and [int] agree on the natural numbers: the text of [z >= 0] is
    made of decimal digits and [int] reads [z] back from it. *)
Lemma int_str_of_int z :
  (0 <= z)%Z ->
  Py.isdecimal (Py.str_of_int z) = true /\ Py.int (Py.str_of_int z) = Some z.
Proof.
  intros Hz. destruct z as [|p|p]; [split; reflexivity| |lia].
  destruct (positive_text p) as [E Hne]. unfold Py.isdecimal, Py.int.
  rewrite Hne, E, uint_text_decimal, int_acc_uint_text_0, Unsigned.of_to.
  split; reflexivity.
Qed.

Lemma key_of_decimal s :
  Py.isdecimal s = true -> key_of s = Py.int s.
Proof.
  intros H. unfold key_of.
  assert (Py.strip s = s) as ->.
  { apply strip_no_space, decimal_no_space.
    unfold Py.isdecimal in H. apply andb_prop in H as [_ H]. exact H. }
  rewrite (isdecimal_isdigit _ H). reflexivity.
Qed.

Lemma key_of_leading_space s : key_of (String " " s) = key_of s.
Proof. reflexivity. Qed.

Lemma negative_text p :
  Py.str_of_int (Z.neg p) = String "-" (NilEmpty.string_of_uint (Pos.to_uint p)).
Proof.
  unfold Py.str_of_int. cbn [Z.to_int NilZero.string_of_int].
  pose proof (Unsigned.to_uint_nonnil p) as Hn.
  destruct (Pos.to_uint p); [contradiction|..]; reflexivity.
Qed.

Lemma int_text_one_element z : Py.split ";" (Py.str_of_int z) = [Py.str_of_int z].
Proof.
  apply split_no_separator. destruct z as [|p|p]; [reflexivity| |].
  - rewrite (proj1 (positive_text p)).
    apply (all_chars_impl Py.isdecimal_char); [|apply uint_text_decimal].
    intros c Hc. rewrite (decimal_char_not_semicolon c Hc). reflexivity.
  - rewrite negative_text. cbn [Py.all_chars].
    apply andb_true_intro. split; [reflexivity|].
    apply (all_chars_impl Py.isdecimal_char); [|apply uint_text_decimal].
    intros c Hc. rewrite (decimal_char_not_semicolon c Hc). reflexivity.
Qed.

Lemma ids_text_int z :
  ids_text (Int z) = if (z =? 0)%Z then None else Some (Py.str_of_int z).
Proof.
  unfold ids_text. cbn [truthy]. destruct z as [|p|p]; [reflexivity| |]; cbn [Z.eqb negb andb].
  - destruct (positive_text p) as [E Hne].
    assert (Py.isdecimal (Py.str_of_int (Z.pos p)) = true) as Hd
      by (apply int_str_of_int; lia).
    assert (Py.strip (Py.str_of_int (Z.pos p)) = Py.str_of_int (Z.pos p)) as ->.
    { apply strip_no_space, decimal_no_space. rewrite E. apply uint_text_decimal. }
    rewrite Hne. 
    replace (String.eqb (Py.str_of_int (Z.pos p)) "nan") with false; [reflexivity|].
    symmetry. destruct (Py.str_of_int (Z.pos p)) as [|c s]; [reflexivity|].
    unfold Py.isdecimal in Hd. cbn [Py.nonempty Py.all_chars andb] in Hd.
    apply andb_prop in Hd as [Hc _]. cbn [String.eqb].
    rewrite (decimal_char_not_n c Hc). reflexivity.
  - rewrite negative_text. reflexivity.
Qed.

(** X16.  An identifier field that was read as an integer (a column of single
    identifiers) is entered under its value when it is positive; zero,
    which is falsy, and a negative number, whose text fails [isdigit], are
    passed over without an error. *)
Theorem integer_field_is_entered_when_positive ids_col cat_col m row z c :
  row !! ids_col = Some (Int z) ->
  row !! cat_col = Some c ->
  add_row ids_col cat_col m row = Ok (if (0 <? z)%Z then <[z := c]> m else m).
Proof.
  intros Hids Hcat. unfold add_row, get_or_empty. rewrite Hids.
  unfold default. cbn [from_option id]. rewrite ids_text_int.
  destruct z as [|p|p]; [reflexivity| |]; cbn [Z.eqb Z.ltb Z.compare].
  - rewrite int_text_one_element. cbn [for_each].
    destruct (int_str_of_int (Z.pos p) ltac:(lia)) as [Hd Hi].
    destruct (decimal_element_inserted row cat_col m _ c
                ltac:(rewrite strip_no_space;
                      [exact Hd|apply decimal_no_space;
                                unfold Py.isdecimal in Hd;
                                apply andb_prop in Hd as [_ Hd]; exact Hd]) Hcat)
      as (k & Hk & ->).
    rewrite strip_no_space in Hk
      by (apply decimal_no_space; unfold Py.isdecimal in Hd;
          apply andb_prop in Hd as [_ Hd]; exact Hd).
    rewrite Hi in Hk. inversion Hk; subst. reflexivity.
  - rewrite int_text_one_element. cbn [for_each].
    rewrite non_digit_element_ignored; [reflexivity|].
    rewrite negative_text. unfold Py.strip. cbn [Py.lstrip].
    change (Py.isspace_char "-") with false. cbv iota.
    cbn [Py.rstrip]. change (Py.isspace_char "-") with false. cbn [andb].
    reflexivity.
Qed.

Lemma integer_field_is_entered_when_positive_witness :
  add_row "hirid_ids" "vital_category" ∅
    (named_row ["vital_category"; "hirid_ids"] [Str "heart_rate"; Int 200])
  = Ok (<[200%Z := Str "heart_rate"]> ∅)
  /\ add_row "hirid_ids" "vital_category" ∅
       (named_row ["vital_category"; "hirid_ids"] [Str "heart_rate"; Int 0])
     = Ok ∅.
Proof.
  split.
  - apply (integer_field_is_entered_when_positive "hirid_ids" "vital_category" ∅
             _ 200%Z (Str "heart_rate")); vm_compute; reflexivity.
  - apply (integer_field_is_entered_when_positive "hirid_ids" "vital_category" ∅
             _ 0%Z (Str "heart_rate")); vm_compute; reflexivity.
Defined.

(** ** The mapping builder *)

Lemma sign_or_digit_plain c :
  sign_or_digit c = true ->
  Py.isspace_char c = false /\ Ascii.eqb c ";" = false /\ Ascii.eqb c "n" = false.
Proof.
  destruct c as [[] [] [] [] [] [] [] []]; try discriminate; intros _; repeat split.
Qed.

Lemma int_text_chars z : Py.all_chars sign_or_digit (Py.str_of_int z) = true.
Proof.
  destruct z as [|p|p]; [reflexivity| |].
  - rewrite (proj1 (positive_text p)).
    apply (all_chars_impl Py.isdecimal_char); [|apply uint_text_decimal].
    intros c Hc. unfold sign_or_digit. rewrite Hc. reflexivity.
  - rewrite negative_text. cbn [Py.all_chars].
    apply andb_true_intro. split; [reflexivity|].
    apply (all_chars_impl Py.isdecimal_char); [|apply uint_text_decimal].
    intros c Hc. unfold sign_or_digit. rewrite Hc. reflexivity.
Qed.

Lemma int_text_head z :
  exists c t, Py.str_of_int z = String c t /\ sign_or_digit c = true.
Proof.
  pose proof (int_text_chars z) as H.
  destruct z as [|p|p].
  - exists "0"%char, EmptyString. split; reflexivity.
  - destruct (positive_text p) as [_ Hne].
    destruct (Py.str_of_int (Z.pos p)) as [|c t]; [discriminate|].
    exists c, t. cbn [Py.all_chars] in H. apply andb_prop in H as [Hc _]. auto.
  - rewrite negative_text. eexists _, _. split; reflexivity.
Qed.

Lemma int_text_no_semicolon z :
  Py.all_chars (fun c => negb (Ascii.eqb c ";")) (Py.str_of_int z) = true.
Proof.
  apply (all_chars_impl sign_or_digit); [|apply int_text_chars].
  intros c Hc. destruct (sign_or_digit_plain c Hc) as (_ & -> & _). reflexivity.
Qed.

Lemma strip_int_text z : Py.strip (Py.str_of_int z) = Py.str_of_int z.
Proof.
  apply strip_no_space, (all_chars_impl sign_or_digit); [|apply int_text_chars].
  intros c Hc. destruct (sign_or_digit_plain c Hc) as (-> & _). reflexivity.
Qed.

Lemma negative_text_not_digit z :
  (z < 0)%Z -> Py.isdigit (Py.str_of_int z) = false.
Proof.
  destruct z as [|p|p]; [lia|lia|]. intros _. rewrite negative_text. reflexivity.
Qed.

Lemma key_of_int_text z :
  key_of (Py.str_of_int z) = if non_negative z then Some z else None.
Proof.
  unfold non_negative. destruct (Z.leb_spec 0 z) as [Hz|Hz].
  - destruct (int_str_of_int z Hz) as [Hd Hi]. rewrite (key_of_decimal _ Hd). exact Hi.
  - unfold key_of. rewrite strip_int_text, (negative_text_not_digit z Hz). reflexivity.
Qed.

Lemma keys_of_int_texts zs :
  omap key_of (map Py.str_of_int zs) = List.filter non_negative zs.
Proof.
  induction zs as [|z zs IH]; [reflexivity|].
  cbn [map List.filter]. rewrite <- IH.
  change (omap key_of (Py.str_of_int z :: map Py.str_of_int zs))
    with (match key_of (Py.str_of_int z) with
          | Some k => k :: omap key_of (map Py.str_of_int zs)
          | None => omap key_of (map Py.str_of_int zs)
          end).
  rewrite key_of_int_text. destruct (non_negative z); reflexivity.
Qed.

Lemma keys_after_space l :
  omap key_of (map (String " ") l) = omap key_of l.
Proof.
  induction l as [|s l IH]; [reflexivity|].
  cbn [map].
  change (omap key_of (String " " s :: map (String " ") l))
    with (match key_of (String " " s) with
          | Some k => k :: omap key_of (map (String " ") l)
          | None => omap key_of (map (String " ") l)
          end).
  change (omap key_of (s :: l))
    with (match key_of s with
          | Some k => k :: omap key_of l
          | None => omap key_of l
          end).
  rewrite key_of_leading_space, IH. reflexivity.
Qed.

Lemma split_app sep x t :
  Py.all_chars (fun c => negb (Ascii.eqb c sep)) x = true ->
  Py.split sep (x +:+ String sep t) = x :: Py.split sep t.
Proof.
  induction x as [|c x IH]; simpl.
  - intros _. rewrite Ascii.eqb_refl. reflexivity.
  - intros H. apply andb_prop in H as [Hc Hx]. apply negb_true_iff in Hc.
    rewrite Hc, (IH Hx). reflexivity.
Qed.

Lemma split_join x xs :
  Forall (fun s => Py.all_chars (fun c => negb (Ascii.eqb c ";")) s = true) (x :: xs) ->
  Py.split ";" (Build.join "; " (x :: xs)) = x :: map (String " ") xs.
Proof.
  revert x. induction xs as [|y ys IH]; intros x H.
  - apply split_no_separator. inversion H; assumption.
  - inversion H as [|? ? Hx Hrest]; subst.
    change (Build.join "; " (x :: y :: ys))
      with (x +:+ String ";" (String " " (Build.join "; " (y :: ys)))).
    rewrite (split_app _ _ _ Hx).
    change (Py.split ";" (String " " (Build.join "; " (y :: ys))))
      with (match Py.split ";" (Build.join "; " (y :: ys)) with
            | h :: t => String " " h :: t
            | [] => [String " " EmptyString]
            end).
    rewrite (IH y Hrest). reflexivity.
Qed.

Lemma join_head sep c x xs :
  exists t, Build.join sep (String c x :: xs) = String c t.
Proof. destruct xs; simpl; eauto. Qed.

Lemma ids_text_plain_head c s :
  Py.isspace_char c = false -> Ascii.eqb c "n" = false ->
  ids_text (Str (String c s)) = Some (String c s).
Proof.
  intros Hs Hn. unfold ids_text, Py.strip.
  cbn [truthy Py.nonempty Py.lstrip String.eqb andb]. rewrite Hs, Hn.
  cbn [Py.rstrip negb andb]. rewrite Hs. reflexivity.
Qed.

(** The list of elements the resolver sees in the text the builder joins
    from the texts of integers. *)
Lemma int_texts_elements z zs :
  exists text,
    ids_text (Str (Build.join "; " (map Py.str_of_int (z :: zs)))) = Some text
    /\ Py.split ";" text
       = Py.str_of_int z :: map (String " ") (map Py.str_of_int zs).
Proof.
  exists (Build.join "; " (map Py.str_of_int (z :: zs))). split.
  - cbn [map]. destruct (int_text_head z) as (c & t & -> & Hc).
    destruct (join_head "; " c t (map Py.str_of_int zs)) as [u ->].
    destruct (sign_or_digit_plain c Hc) as (Hs & _ & Hn).
    apply ids_text_plain_head; assumption.
  - cbn [map]. apply split_join. apply Forall_forall. intros s Hs.
    change (Py.str_of_int z :: map Py.str_of_int zs)
      with (map Py.str_of_int (z :: zs)) in Hs.
    apply list_elem_of_fmap in Hs as (z' & -> & _). apply int_text_no_semicolon.
Qed.

Lemma claimed_keys_of_int_texts ids_col row zs :
  row !! ids_col = Some (Str (Build.join "; " (map Py.str_of_int zs))) ->
  claimed_keys ids_col row = List.filter non_negative zs.
Proof.
  intros H. unfold claimed_keys, get_or_empty. rewrite H.
  unfold default. cbn [from_option id].
  destruct zs as [|z zs]; [reflexivity|].
  destruct (int_texts_elements z zs) as (text & -> & ->).
  change (omap key_of (Py.str_of_int z :: map (String " ") (map Py.str_of_int zs)))
    with (match key_of (Py.str_of_int z) with
          | Some k => k :: omap key_of (map (String " ") (map Py.str_of_int zs))
          | None => omap key_of (map (String " ") (map Py.str_of_int zs))
          end).
  rewrite keys_after_space, keys_of_int_texts, key_of_int_text.
  cbn [List.filter]. destruct (non_negative z); reflexivity.
Qed.

Lemma add_ids_total row cat_col c sids m :
  row !! cat_col = Some c ->
  Forall (fun sid => Py.isdigit (Py.strip sid) = false
                     \/ Py.isdecimal (Py.strip sid) = true) sids ->
  exists m', for_each sids (add_id row cat_col) m = Ok m'.
Proof.
  intros Hc H. revert m. induction H as [|sid sids Hsid _ IH]; intros m.
  - eexists. reflexivity.
  - cbn [for_each]. destruct Hsid as [Hn|Hd].
    + rewrite (non_digit_element_ignored _ _ _ _ Hn). apply IH.
    + destruct (decimal_element_inserted row cat_col m sid c Hd Hc) as (k & _ & ->).
      apply IH.
Qed.

Lemma int_text_tolerated z :
  Py.isdigit (Py.strip (Py.str_of_int z)) = false
  \/ Py.isdecimal (Py.strip (Py.str_of_int z)) = true.
Proof.
  rewrite strip_int_text. destruct (Z.leb_spec 0 z) as [Hz|Hz].
  - right. apply (int_str_of_int z Hz).
  - left. apply (negative_text_not_digit z Hz).
Qed.

Lemma add_row_int_texts ids_col cat_col m row zs c :
  row !! ids_col = Some (Str (Build.join "; " (map Py.str_of_int zs))) ->
  row !! cat_col = Some c ->
  exists m', add_row ids_col cat_col m row = Ok m'.
Proof.
  intros H Hc. unfold add_row, get_or_empty. rewrite H.
  unfold default. cbn [from_option id].
  destruct zs as [|z zs]; [eexists; reflexivity|].
  destruct (int_texts_elements z zs) as (text & -> & ->).
  apply (add_ids_total _ _ c); [exact Hc|].
  constructor; [apply int_text_tolerated|].
  apply Forall_forall. intros s Hs.
  apply list_elem_of_fmap in Hs as (s' & -> & Hs').
  apply list_elem_of_fmap in Hs' as (z' & -> & _).
  apply (int_text_tolerated z').
Qed.

Lemma item_ids_integers it zs :
  item_integers it = Some zs -> Build.item_ids it = map Py.str_of_int zs.
Proof.
  unfold item_integers, Build.item_ids.
  destruct (Build.ids it) as [[x|xs]|]; [| |discriminate].
  - destruct x as [z|s]; [|discriminate]. intros H. inversion H. reflexivity.
  - revert zs. induction xs as [|x xs IH]; intros zs H.
    + inversion H. reflexivity.
    + cbn [mapM] in H. destruct x as [z|s]; [|discriminate].
      cbn in H. destruct (mapM scalar_integer xs) as [rest|]; [|discriminate].
      inversion H; subst. cbn [map Build.str]. rewrite (IH rest eq_refl). reflexivity.
Qed.

Lemma extract_joins e ds :
  Build.extract_ids_from_source e ds
  = Build.join "; " (match e with
                     | Build.Items l => flat_map Build.item_ids l
                     | Build.NotAList => []
                     end).
Proof.
  unfold Build.extract_ids_from_source.
  destruct (match e with Build.Items l => _ | Build.NotAList => _ end); reflexivity.
Qed.

Lemma extract_integers e ds zs :
  entry_integers e = Some zs ->
  Build.extract_ids_from_source e ds = Build.join "; " (map Py.str_of_int zs).
Proof.
  intros H. rewrite extract_joins. f_equal.
  destruct e as [l|]; [|discriminate]. cbn [entry_integers] in H.
  revert zs H. induction l as [|it l IH]; intros zs H.
  - inversion H. reflexivity.
  - cbn [items_integers] in H.
    destruct (item_integers it) as [zs1|] eqn:E1; [|discriminate].
    destruct (items_integers l) as [rest|]; [|discriminate].
    inversion H; subst. cbn [flat_map].
    rewrite (item_ids_integers _ _ E1), (IH rest eq_refl), List.map_app. reflexivity.
Qed.

(** X17.  The identifier list the builder writes for a source entry made of
    integers is read back by the resolver as exactly the non-negative ones
    among them: the entry is entered without an error, each of these keys is
    mapped to the entry's category and no other key is touched. *)
Theorem builder_integers_are_read_back e ds zs ids_col cat_col c row m :
  entry_integers e = Some zs ->
  row !! ids_col = Some (Str (Build.extract_ids_from_source e ds)) ->
  row !! cat_col = Some c ->
  claimed_keys ids_col row = List.filter non_negative zs
  /\ exists m', add_row ids_col cat_col m row = Ok m'
       /\ forall k, m' !! k = if decide (k ∈ zs /\ (0 <= k)%Z) then Some c else m !! k.
Proof.
  intros He Hids Hc. rewrite (extract_integers _ _ _ He) in Hids.
  pose proof (claimed_keys_of_int_texts _ _ _ Hids) as Hk.
  split; [exact Hk|].
  destruct (add_row_int_texts ids_col cat_col m row zs c Hids Hc) as [m' Hm].
  exists m'. split; [exact Hm|]. intros k.
  rewrite (add_row_lookup _ _ _ _ _ Hm k), Hk, Hc.
  destruct (decide (k ∈ List.filter non_negative zs)) as [Hin|Hout];
    destruct (decide (k ∈ zs /\ (0 <= k)%Z)) as [Hin'|Hout']; try reflexivity; exfalso.
  - apply Hout'. apply list_elem_of_In, List.filter_In in Hin as [Hin Hz].
    split; [apply list_elem_of_In, Hin|]. unfold non_negative in Hz. lia.
  - apply Hout. destruct Hin' as [Hin Hz]. apply list_elem_of_In, List.filter_In.
    split; [apply list_elem_of_In, Hin|]. unfold non_negative. lia.
Qed.

Lemma builder_integers_are_read_back_witness :
  let row : gmap string cell :=
    {[ "hirid_ids" := Str "200; 210; 211"; "vital_category" := Str "heart_rate" ]} in
  claimed_keys "hirid_ids" row = [200; 210; 211]%Z
  /\ exists m', add_row "hirid_ids" "vital_category" ∅ row = Ok m'
       /\ forall k, m' !! k = if decide (k ∈ [200; 210; 211]%Z /\ (0 <= k)%Z)
                              then Some (Str "heart_rate") else (∅ : gmap Z cell) !! k.
Proof.
  intros row.
  apply (builder_integers_are_read_back sample_source "hirid" [200; 210; 211]%Z
           "hirid_ids" "vital_category" (Str "heart_rate") row ∅); reflexivity.
Defined.

Lemma enhance_row_other cc rm ctr row col :
  col ∉ Build.extra_columns ->
  Build.enhance_row cc rm ctr row !! col = row !! col.
Proof.
  intros H. unfold Build.extra_columns in H.
  repeat (apply not_elem_of_cons in H as [? H]).
  unfold Build.enhance_row. cbn zeta.
  destruct (_ ≫= _); rewrite !lookup_insert_ne by congruence; reflexivity.
Qed.

Lemma enhance_row_extra cc rm ctr row col :
  col ∈ Build.extra_columns ->
  is_Some (Build.enhance_row cc rm ctr row !! col).
Proof.
  intros H. unfold Build.extra_columns in H.
  unfold Build.enhance_row. cbn zeta.
  repeat (apply elem_of_cons in H as [->|H]); [..|inversion H];
    destruct (_ ≫= _);
    repeat (rewrite lookup_insert_eq || rewrite lookup_insert_ne by discriminate);
    eauto.
Qed.

(** X18.  Enhancing gives one row for each input row, in order; the row keeps
    every column of the input row that is not one of the six mapping
    columns, and has all six.  No other column, [sic_ids] in particular, is
    added. *)
Theorem enhance_adds_the_six_columns input_rows cc rm ctr :
  Forall2 (fun row enhanced =>
             (forall col, col ∉ Build.extra_columns -> enhanced !! col = row !! col)
             /\ (forall col, col ∈ Build.extra_columns -> is_Some (enhanced !! col)))
    input_rows (Build.enhance_csv_with_mappings input_rows cc rm ctr).
Proof.
  unfold Build.enhance_csv_with_mappings.
  induction input_rows as [|row rows IH]; constructor; [|exact IH].
  split; intros col H.
  - apply enhance_row_other, H.
  - apply enhance_row_extra, H.
Qed.

Lemma enhance_row_unmapped cc rm ctr row :
  (forall name,
     mjoin (ctr !! Py.strip (Py.lower (default "" (row !! cc)))) = Some name ->
     Py.nonempty name = true -> rm !! name = None) ->
  forall col, col ∈ ["mimic_iii_itemid"; "mimic_iv_itemid"; "eicu_ids"; "hirid_ids";
                     "aumc_ids"] ->
  Build.enhance_row cc rm ctr row !! col = Some "".
Proof.
  intros Hun col H. unfold Build.enhance_row. cbn zeta.
  destruct (mjoin (ctr !! Py.strip (Py.lower (default "" (row !! cc))))) as [name|];
    [destruct (Py.nonempty name) eqn:Hn|]; cbn [mbind option_bind];
    [rewrite (Hun name eq_refl Hn)|..];
    repeat (apply elem_of_cons in H as [->|H]); try (inversion H; fail);
    repeat (rewrite lookup_insert_eq || rewrite lookup_insert_ne by discriminate);
    reflexivity.
Qed.

(** X19.  A row whose category has no ricu concept (it is not a key of the
    translation, is translated to [None] or to the empty name, or names a
    concept the dictionary does not have) gets five empty identifier
    fields, and the resolver finds no key in any of them. *)
Theorem unmapped_category_gets_no_identifiers cc rm ctr row col :
  (forall name,
     mjoin (ctr !! Py.strip (Py.lower (default "" (row !! cc)))) = Some name ->
     Py.nonempty name = true -> rm !! name = None) ->
  col ∈ ["mimic_iii_itemid"; "mimic_iv_itemid"; "eicu_ids"; "hirid_ids"; "aumc_ids"] ->
  Build.enhance_row cc rm ctr row !! col = Some ""
  /\ claimed_keys col (as_table_row (Build.enhance_row cc rm ctr row)) = [].
Proof.
  intros Hun H. pose proof (enhance_row_unmapped cc rm ctr row Hun col H) as E.
  split; [exact E|].
  unfold claimed_keys, get_or_empty, as_table_row.
  rewrite lookup_fmap, E. reflexivity.
Qed.

Lemma unmapped_category_gets_no_identifiers_witness :
  let row : gmap string string := {[ "lab_category" := " Ferritin" ]} in
  Build.enhance_row "lab_category" (Build.parse_ricu_concepts sample_concepts)
    sample_clif_to_ricu row !! "hirid_ids" = Some ""
  /\ claimed_keys "hirid_ids"
       (as_table_row (Build.enhance_row "lab_category"
                        (Build.parse_ricu_concepts sample_concepts)
                        sample_clif_to_ricu row)) = [].
Proof.
  intros row.
  apply (unmapped_category_gets_no_identifiers "lab_category"
           (Build.parse_ricu_concepts sample_concepts) sample_clif_to_ricu row
           "hirid_ids").
  - intros name H. vm_compute in H. discriminate.
  - set_solver.
Defined.

Lemma parse_lookup concept_dict name c srcs :
  concept_dict !! name = Some c -> Build.sources c = Some srcs ->
  exists mp, Build.parse_ricu_concepts concept_dict !! name = Some mp
             /\ Build.hirid_ids mp = Build.ids_for srcs "hirid"
             /\ Build.aumc_ids mp = Build.ids_for srcs "aumc"
             /\ Build.eicu_ids mp = Build.ids_for srcs "eicu"
             /\ Build.mimic_iii_itemid mp = Build.ids_for srcs "mimic"
             /\ Build.mimic_iv_itemid mp = Build.ids_for srcs "miiv".
Proof.
  intros Hc Hs. unfold Build.parse_ricu_concepts.
  rewrite lookup_omap, Hc. cbn [mbind option_bind]. rewrite Hs.
  eexists. split; [reflexivity|]. repeat split.
Qed.

Lemma enhance_row_mapped cc rm ctr row name mp :
  mjoin (ctr !! Py.strip (Py.lower (default "" (row !! cc)))) = Some name ->
  Py.nonempty name = true -> rm !! name = Some mp ->
  Build.enhance_row cc rm ctr row !! "hirid_ids" = Some (Build.hirid_ids mp)
  /\ Build.enhance_row cc rm ctr row !! "aumc_ids" = Some (Build.aumc_ids mp)
  /\ Build.enhance_row cc rm ctr row !! "eicu_ids" = Some (Build.eicu_ids mp)
  /\ Build.enhance_row cc rm ctr row !! "ricu_concept" = Some name.
Proof.
  intros Hn Hne Hm. unfold Build.enhance_row. cbn zeta.
  rewrite Hn, Hne. cbn [mbind option_bind default from_option id]. rewrite Hm.
  repeat split;
    repeat (rewrite lookup_insert_eq || rewrite lookup_insert_ne by discriminate);
    reflexivity.
Qed.

(** X20.  From the concept dictionary to the resolver: when the category of a
    row translates to a concept whose source entry for HiRID (for AUMC)
    lists integers, the enhanced row claims, under [hirid_ids] (under
    [aumc_ids]), exactly the non-negative ones among them. *)
Theorem enhanced_row_claims_the_concept_ids concept_dict ctr cc row name c srcs src col
    e zs :
  mjoin (ctr !! Py.strip (Py.lower (default "" (row !! cc)))) = Some name ->
  Py.nonempty name = true ->
  concept_dict !! name = Some c ->
  Build.sources c = Some srcs ->
  (src, col) ∈ [("hirid", "hirid_ids"); ("aumc", "aumc_ids")] ->
  srcs !! src = Some e ->
  entry_integers e = Some zs ->
  claimed_keys col
    (as_table_row
       (Build.enhance_row cc (Build.parse_ricu_concepts concept_dict) ctr row))
  = List.filter non_negative zs.
Proof.
  intros Hn Hne Hc Hs Hcol He Hz.
  destruct (parse_lookup _ _ _ _ Hc Hs) as (mp & Hmp & Hh & Ha & _).
  destruct (enhance_row_mapped cc _ ctr row name mp Hn Hne Hmp) as (Eh & Ea & _).
  apply claimed_keys_of_int_texts. unfold as_table_row. rewrite lookup_fmap.
  rewrite <- (extract_integers e src zs Hz).
  apply elem_of_cons in Hcol as [Hcol|Hcol];
    [|apply elem_of_cons in Hcol as [Hcol|Hcol]; [|inversion Hcol]];
    inversion Hcol; subst.
  - rewrite Eh, Hh. unfold Build.ids_for. rewrite He. reflexivity.
  - rewrite Ea, Ha. unfold Build.ids_for. rewrite He. reflexivity.
Qed.

Lemma enhanced_row_claims_the_concept_ids_witness :
  claimed_keys "hirid_ids"
    (as_table_row
       (Build.enhance_row "vital_category" (Build.parse_ricu_concepts sample_concepts)
          sample_clif_to_ricu sample_csv_row))
  = [200; 210; 211]%Z.
Proof.
  apply (enhanced_row_claims_the_concept_ids sample_concepts sample_clif_to_ricu
           "vital_category" sample_csv_row "hr"
           (Build.mkConcept (Some {[ "hirid" := sample_source ]})
              (Some "heart rate") (Some "vitals") (Some "bpm"))
           {[ "hirid" := sample_source ]} "hirid" "hirid_ids" sample_source
           [200; 210; 211]%Z); try reflexivity.
  set_solver.
Defined.

Lemma remove_first_filter x l :
  NoDup l -> Build.remove_first x l = List.filter (fun y => negb (String.eqb x y)) l.
Proof.
  induction 1 as [|y ys Hy _ IH]; [reflexivity|]. cbn [Build.remove_first List.filter].
  destruct (String.eqb_spec x y) as [->|Hne]; cbn [negb].
  - symmetry. apply List.forallb_filter_id, forallb_forall. intros z Hz.
    apply negb_true_iff, String.eqb_neq. intros ->.
    apply Hy, list_elem_of_In, Hz.
  - rewrite IH. reflexivity.
Qed.

Lemma remove_first_absent x l : x ∉ l -> Build.remove_first x l = l.
Proof.
  induction l as [|y ys IH]; [reflexivity|]. intros H.
  apply not_elem_of_cons in H as [Hne Hys]. cbn [Build.remove_first].
  destruct (String.eqb_spec x y) as [->|_]; [contradiction|].
  rewrite (IH Hys). reflexivity.
Qed.

Lemma filter_twice {A} (p q : A -> bool) l :
  List.filter p (List.filter q l) = List.filter (fun x => q x && p x) l.
Proof.
  induction l as [|x l IH]; [reflexivity|]. cbn [List.filter].
  destruct (q x); cbn [List.filter andb]; rewrite IH; reflexivity.
Qed.

Lemma NoDup_filter_bool (p : string -> bool) l : NoDup l -> NoDup (List.filter p l).
Proof.
  induction 1 as [|y ys Hy _ IH]; cbn [List.filter]; [constructor|].
  destruct (p y); [|exact IH]. constructor; [|exact IH].
  intros H. apply Hy. apply list_elem_of_In, List.filter_In in H as [H _].
  apply list_elem_of_In, H.
Qed.

(** X21.  The header of the written file: the columns of the first row that are
    not extra columns, in their order, followed by the extra columns.  (The
    keys of a dictionary are distinct.) *)
Theorem fieldnames_end_with_the_extra_columns existing extra :
  NoDup existing ->
  Build.fieldnames existing extra
  = List.filter (fun c => negb (bool_decide (c ∈ extra))) existing ++ extra.
Proof.
  intros Hnd. unfold Build.fieldnames. f_equal.
  revert existing Hnd. induction extra as [|x extra IH]; intros existing Hnd.
  - cbn [fold_left]. symmetry. apply List.forallb_filter_id, forallb_forall.
    intros c _. rewrite bool_decide_eq_false_2 by (intros H; inversion H). reflexivity.
  - cbn [fold_left].
    assert ((if bool_decide (x ∈ existing) then Build.remove_first x existing
             else existing)
            = List.filter (fun y => negb (String.eqb x y)) existing) as ->.
    { destruct (bool_decide_reflect (x ∈ existing)) as [Hin|Hout].
      - apply remove_first_filter, Hnd.
      - rewrite <- (remove_first_absent x existing Hout) at 1.
        apply remove_first_filter, Hnd. }
    rewrite IH by (apply NoDup_filter_bool, Hnd).
    rewrite filter_twice. apply List.filter_ext. intros y.
    destruct (String.eqb_spec x y) as [->|Hne]; cbn [negb andb].
    + rewrite bool_decide_eq_true_2 by (left; reflexivity). reflexivity.
    + destruct (bool_decide_reflect (y ∈ extra)) as [Hin|Hout].
      * rewrite bool_decide_eq_true_2 by (right; exact Hin). reflexivity.
      * rewrite bool_decide_eq_false_2; [reflexivity|].
        intros H. apply elem_of_cons in H as [->|H]; [apply Hne; reflexivity|].
        apply Hout, H.
Qed.

Lemma fieldnames_end_with_the_extra_columns_witness :
  Build.fieldnames
    ["vital_category"; "hirid_ids"; "description"; "ricu_concept"]
    Build.extra_columns
  = ["vital_category"; "description"] ++ Build.extra_columns.
Proof.
  apply (fieldnames_end_with_the_extra_columns
           ["vital_category"; "hirid_ids"; "description"; "ricu_concept"]
           Build.extra_columns).
  apply (bool_decide_unpack _). vm_compute. exact I.
Defined.

(** ** Precedence among the source files *)

Lemma long_tail_effects n m df d d' o l :
  effects (long_tail n m df (mkWorld d' o l)) = effects (long_tail n m df (mkWorld d o l)).
Proof. unfold long_tail. crunch; reflexivity. Qed.

Lemma id_adapter_effects a self d d' :
  native a (fresh d') = native a (fresh d) ->
  processing a (fresh d') = processing a (fresh d) ->
  effects (run_id_adapter a self (fresh d')) = effects (run_id_adapter a self (fresh d)).
Proof.
  intros Hn Hp. rewrite !run_id_adapter_unfold, Hn. unfold started, print, fresh in *.
  cbn [data output stdout]. rewrite Hp.
  destruct (native a (mkWorld d ∅ [])) as [rd|]; [|reflexivity].
  cbn zeta. destruct (resolve a self) as [m|e]; cbn [attempt]; [|reflexivity].
  destruct rd as [df|e]; cbn [attempt]; [|reflexivity].
  apply long_tail_effects.
Qed.

Ltac agree Hd :=
  repeat match goal with
         | |- context [?m !! ?k] =>
             rewrite (Hd k)
               by (let Hin := fresh in
                   intros Hin;
                   repeat (apply elem_of_cons in Hin as [Hin|Hin]; [discriminate|]);
                   inversion Hin)
         end.

Ltac settle Hd d :=
  repeat (progress (agree Hd;
                    repeat match goal with H : d !! _ = _ |- _ => rewrite !H end;
                    cbv iota beta)).

Ltac candidate_cases a pre Hc Hpre :=
  destruct a; cbn [candidates] in Hc;
  destruct pre as [|? [|? [|? [|? ?]]]]; inversion Hc; subst; clear Hc;
  try (pose proof (Hpre _ (list_elem_of_here _ _)));
  try (pose proof (Hpre _ (list_elem_of_further _ _ _ (list_elem_of_here _ _))));
  cbn [native processing];
  unfold one_of, csv_or_parquet, exists_, scan_by_suffix, scan_obs_dir,
    scan_parquet, scan_csv, scan_file, fresh; cbn [data];
  change ("data_float_h" +:+ ".csv") with "data_float_h.csv";
  change ("data_float_h" +:+ ".parquet") with "data_float_h.parquet";
  change ("laboratory" +:+ ".csv") with "laboratory.csv";
  change ("laboratory" +:+ ".parquet") with "laboratory.parquet";
  change ("numericitems" +:+ ".csv") with "numericitems.csv";
  change ("numericitems" +:+ ".parquet") with "numericitems.parquet".

(** X22.  The first candidate that exists decides: what an adapter does is the
    same for two source directories that agree on every path but the
    candidates after it. *)
Theorem first_candidate_shadows_the_rest a self d d' pre p post :
  candidates a = pre ++ p :: post ->
  (forall q, q ∈ pre -> d !! q = None) ->
  is_Some (d !! p) ->
  (forall k, k ∉ post -> d' !! k = d !! k) ->
  effects (run_id_adapter a self (fresh d')) = effects (run_id_adapter a self (fresh d)).
Proof.
  intros Hc Hpre [x Hp] Hd. apply id_adapter_effects.
  - candidate_cases a pre Hc Hpre; settle Hd d; reflexivity.
  - candidate_cases a pre Hc Hpre; settle Hd d; reflexivity.
Qed.

Lemma first_candidate_shadows_the_rest_witness :
  effects (run_id_adapter SicVitals sample_sic_etl both_forms_world)
  = effects (run_id_adapter SicVitals sample_sic_etl (fresh (data sic_world))).
Proof.
  apply (first_candidate_shadows_the_rest SicVitals sample_sic_etl (data sic_world)
           (data both_forms_world) [] "data_float_h.csv" ["data_float_h.parquet"]).
  - reflexivity.
  - intros q Hq. inversion Hq.
  - vm_compute. eauto.
  - intros k Hk. apply not_elem_of_cons in Hk as [Hk _].
    unfold both_forms_world, fresh. cbn [data]. apply lookup_insert_ne. congruence.
Defined.
